(** * The user sport section (src/app/_components/user-sport-section.tsx)

    A shallow embedding of the React component [UserSportSection], of its
    child [AddSportCard] and of the two display helpers, followed by the
    properties of the specification that can be stated over them.

    Conventions of the embedding:
    - a JavaScript string is a [string]; the sport identifiers are lower-case
      ASCII words, and [toUpperCase] is written out for ASCII code units;
    - [null] is [None]; JavaScript truthiness of a string or of a nullable
      string is written out ([truthy], [truthy_opt]);
    - a [throw] is the [Throw] case of [completion];
    - [useState] cells are record fields, handlers are functions from the
      state to the new state and the list of commands they issue (mutations
      dispatched, toasts, cache invalidations), [useEffect] bodies are
      functions on the state run after every event. *)

From Stdlib Require Import List String Ascii Bool Arith Lia.
Import ListNotations.
Open Scope string_scope.
Open Scope list_scope.

(** ** JavaScript values *)

(** [type Sport] is imported from [@/api/sports]; at run time a sport is a
    string.  The closed set is the one the [switch] of
    [getMatchingSportsIcon] enumerates. *)
Definition Sport := string.

Definition known_sports : list Sport :=
  ["baseball"; "basketball"; "football"; "soccer"; "tennis"].

Definition is_sport (s : string) : bool :=
  existsb (String.eqb s) known_sports.

(** Truthiness of a string: every string but the empty one. *)
Definition truthy (s : string) : bool :=
  match s with
  | EmptyString => false
  | String _ _ => true
  end.

(** Truthiness of [Sport | null]. *)
Definition truthy_opt (o : option Sport) : bool :=
  match o with
  | None => false
  | Some s => truthy s
  end.

(** Normal completion or a thrown [Error] carrying its message. *)
Inductive completion (A : Type) : Type :=
| Normal (a : A)
| Throw (message : string).
Arguments Normal {A} a.
Arguments Throw {A} message.

Definition throws {A : Type} (c : completion A) : bool :=
  match c with
  | Normal _ => false
  | Throw _ => true
  end.

(** [String.prototype.charAt(n)]: the one-character string at index [n], the
    empty string when [n] is out of range. *)
Fixpoint charAt (s : string) (n : nat) : string :=
  match s, n with
  | EmptyString, _ => EmptyString
  | String c _, 0 => String c EmptyString
  | String _ r, S k => charAt r k
  end.

(** [String.prototype.slice(n)] with a single non-negative argument: the
    suffix starting at index [n]. *)
Fixpoint slice (s : string) (n : nat) {struct n} : string :=
  match n, s with
  | 0, _ => s
  | S _, EmptyString => EmptyString
  | S k, String _ r => slice r k
  end.

(** [toUpperCase] of one ASCII code unit: a-z go to A-Z, the rest of ASCII
    stays.  The strings of the embedding are the ASCII ones (the sport
    identifiers and their display names); beyond ASCII the function of the
    language maps some code units to others, or to several, and is not
    modelled. *)
Definition upper_ascii (c : ascii) : ascii :=
  let n := nat_of_ascii c in
  if ((97 <=? n)%nat && (n <=? 122)%nat)%bool then ascii_of_nat (n - 32) else c.

Fixpoint toUpperCase (s : string) : string :=
  match s with
  | EmptyString => EmptyString
  | String c r => String (upper_ascii c) (toUpperCase r)
  end.

(** [Array.prototype.includes] on an array of strings. *)
Fixpoint includes (l : list Sport) (x : Sport) : bool :=
  match l with
  | [] => false
  | y :: r => if String.eqb y x then true else includes r x
  end.

(** ** Helpers *)

(** The icon components imported from react-icons. *)
Inductive Icon : Type :=
| FaBaseballBall
| FaBasketballBall
| FaFootballBall
| PiSoccerBall
| PiTennisBall.

Definition getMatchingSportsIcon (sport : Sport) : completion Icon :=
  if String.eqb sport "baseball" then Normal FaBaseballBall
  else if String.eqb sport "basketball" then Normal FaBasketballBall
  else if String.eqb sport "football" then Normal FaFootballBall
  else if String.eqb sport "soccer" then Normal PiSoccerBall
  else if String.eqb sport "tennis" then Normal PiTennisBall
  else Throw ("No icon found for sport: " ++ sport).

Definition formatSportName (sport : Sport) : string :=
  toUpperCase (charAt sport 0) ++ slice sport 1.

(** [allSports.filter((sport) => !userSports.includes(sport))]. *)
Definition availableSports (allSports userSports : list Sport) : list Sport :=
  filter (fun sport => negb (includes userSports sport)) allSports.

(** ** Commands issued by handlers and mutation callbacks *)

Inductive Cmd : Type :=
| MutateAdd (sport : Sport)                 (* addSportMutation.mutate(sport) *)
| MutateDelete (sport : Sport)              (* deleteSportMutation.mutate(sport) *)
| InvalidateQueries (queryKey : list string)
| ToastSuccess (message : string)
| ToastError (message : string).

Definition is_add (c : Cmd) : bool :=
  match c with MutateAdd _ => true | _ => false end.
Definition is_success_toast (c : Cmd) : bool :=
  match c with ToastSuccess _ => true | _ => false end.
Definition is_error_toast (c : Cmd) : bool :=
  match c with ToastError _ => true | _ => false end.
Definition is_invalidate (c : Cmd) : bool :=
  match c with InvalidateQueries _ => true | _ => false end.

Definition count (p : Cmd -> bool) (l : list Cmd) : nat :=
  List.length (filter p l).

(** ** The add-sport card *)

Module AddSportCard.

Record Props : Type := mkProps {
  p_availableSports : list Sport;
  isMutating : bool
}.

Record State : Type := mkState {
  open : bool;
  selectedSport : string;          (* Sport | "" *)
  pendingSport : option Sport      (* Sport | null *)
}.

Definition initial : State := mkState false "" None.

Definition beginningAdd (p : Props) (s : State) : bool :=
  truthy_opt (pendingSport s) || isMutating p.

(** [handleAdd]; [onAdd] is the parent's
    [(sport) => addSportMutation.mutate(sport)]. *)
Definition handleAdd (p : Props) (s : State) : State * list Cmd :=
  if truthy (selectedSport s) && negb (isMutating p) then
    (mkState (open s) (selectedSport s) (Some (selectedSport s)),
     [MutateAdd (selectedSport s)])
  else (s, []).

(** The body of the [useEffect]. *)
Definition effect (p : Props) (s : State) : State :=
  match pendingSport s with
  | Some pending =>
      if truthy pending && negb (isMutating p)
         && negb (includes (p_availableSports p) pending)
      then mkState false "" None
      else s
  | None => s
  end.

(** What the render shows. *)
Definition trigger_disabled (p : Props) : bool :=
  Nat.eqb (List.length (p_availableSports p)) 0.

Definition options (p : Props) : list (Sport * string) :=
  map (fun sport => (sport, formatSportName sport)) (p_availableSports p).

Definition button_disabled (p : Props) (s : State) : bool :=
  negb (truthy (selectedSport s)) || beginningAdd p s.

Definition button_label (p : Props) (s : State) : string :=
  if beginningAdd p s then "Adding…" else "Add Sport".

End AddSportCard.

(** ** The main section *)

Module UserSportSection.

(** What [useQuery] returns: [data] is [undefined] until the first fetch
    delivers, and the component defaults it to [[]]. *)
Record Query : Type := mkQuery {
  data : option (list Sport);
  isLoading : bool
}.

Definition data_or_empty (q : Query) : list Sport :=
  match data q with
  | Some l => l
  | None => []
  end.

(** What [useMutation] returns: the in-flight flag and the argument of the
    observed [mutate] call.  The observer follows the latest call only, and
    so does this record: it is exact as long as the calls of one mutation do
    not overlap, which is always so for the add (its handler and its button
    wait for the call in flight) and, for the delete, as long as the
    confirmation dialog is not dismissed while a call is outstanding. *)
Record Mutation : Type := mkMutation {
  isPending : bool;
  variables : option Sport
}.

Definition idle : Mutation := mkMutation false None.

Record State : Type := mkState {
  allSportsQuery : Query;
  userSportsQuery : Query;
  addSportMutation : Mutation;
  deleteSportMutation : Mutation;
  sportToDelete : option Sport;
  deletingPending : bool;
  addCard : AddSportCard.State
}.

Definition allSports (st : State) : list Sport := data_or_empty (allSportsQuery st).
Definition userSports (st : State) : list Sport := data_or_empty (userSportsQuery st).
Definition allLoading (st : State) : bool := isLoading (allSportsQuery st).
Definition userLoading (st : State) : bool := isLoading (userSportsQuery st).

(** The derived list, computed in the body of the component. *)
Definition st_availableSports (st : State) : list Sport :=
  availableSports (allSports st) (userSports st).

Definition isDeleting (st : State) : bool := deletingPending st.

(** The props handed to [<AddSportCard/>]. *)
Definition cardProps (st : State) : AddSportCard.Props :=
  AddSportCard.mkProps (st_availableSports st) (isPending (addSportMutation st)).

(** *** State setters *)

Definition setSportToDelete (v : option Sport) (st : State) : State :=
  mkState (allSportsQuery st) (userSportsQuery st) (addSportMutation st)
          (deleteSportMutation st) v (deletingPending st) (addCard st).

Definition setDeletingPending (v : bool) (st : State) : State :=
  mkState (allSportsQuery st) (userSportsQuery st) (addSportMutation st)
          (deleteSportMutation st) (sportToDelete st) v (addCard st).

Definition setAddCard (c : AddSportCard.State) (st : State) : State :=
  mkState (allSportsQuery st) (userSportsQuery st) (addSportMutation st)
          (deleteSportMutation st) (sportToDelete st) (deletingPending st) c.

Definition setAddMutation (m : Mutation) (st : State) : State :=
  mkState (allSportsQuery st) (userSportsQuery st) m
          (deleteSportMutation st) (sportToDelete st) (deletingPending st)
          (addCard st).

Definition setDeleteMutation (m : Mutation) (st : State) : State :=
  mkState (allSportsQuery st) (userSportsQuery st) (addSportMutation st)
          m (sportToDelete st) (deletingPending st) (addCard st).

Definition setAllSportsQuery (q : Query) (st : State) : State :=
  mkState q (userSportsQuery st) (addSportMutation st)
          (deleteSportMutation st) (sportToDelete st) (deletingPending st)
          (addCard st).

Definition setUserSportsQuery (q : Query) (st : State) : State :=
  mkState (allSportsQuery st) q (addSportMutation st)
          (deleteSportMutation st) (sportToDelete st) (deletingPending st)
          (addCard st).

(** *** Mutation callbacks *)

Definition add_onSuccess (sport : Sport) : list Cmd :=
  [InvalidateQueries ["userSports"];
   ToastSuccess (formatSportName sport ++ " was successfully added.")].

Definition add_onError : list Cmd :=
  [ToastError "Could not add sport — please try again."].

Definition delete_onSuccess (sport : Sport) : list Cmd :=
  [InvalidateQueries ["userSports"];
   ToastSuccess (formatSportName sport ++ " was successfully deleted.")].

Definition delete_onError : list Cmd :=
  [ToastError "Could not delete sport — please try again."].

(** *** Handlers *)

Definition handleDelete (sport : Sport) (st : State) : State * list Cmd :=
  (setDeletingPending true st, [MutateDelete sport]).

(** [onClick] of a card's remove button. *)
Definition remove_onClick (sport : Sport) (st : State) : State * list Cmd :=
  (setSportToDelete (Some sport) st, []).

(** [onOpenChange] of the confirmation dialog. *)
Definition dialog_onOpenChange (o : bool) (st : State) : State * list Cmd :=
  if negb o then (setDeletingPending false (setSportToDelete None st), [])
  else (st, []).

(** [onClick] of the Cancel button. *)
Definition cancel_onClick (st : State) : State * list Cmd :=
  (setDeletingPending false (setSportToDelete None st), []).

(** [onClick] of the Delete button:
    [sportToDelete && handleDelete(sportToDelete)]. *)
Definition delete_onClick (st : State) : State * list Cmd :=
  match sportToDelete st with
  | Some sport => if truthy sport then handleDelete sport st else (st, [])
  | None => (st, [])
  end.

(** The body of the [useEffect] of the section. *)
Definition effect (st : State) : State :=
  match sportToDelete st with
  | Some sport =>
      if truthy sport && deletingPending st
         && negb (isPending (deleteSportMutation st))
         && negb (includes (userSports st) sport)
      then setDeletingPending false (setSportToDelete None st)
      else st
  | None => st
  end.

(** *** Render *)

Record SportCardView : Type := mkCard {
  cv_sport : Sport;
  cv_icon : Icon;
  cv_name : string;
  cv_remove_label : string;        (* aria-label *)
  cv_remove_disabled : bool
}.

Record DialogView : Type := mkDialog {
  dv_open : bool;
  dv_title : string;
  dv_cancel_disabled : bool;
  dv_delete_disabled : bool;
  dv_delete_label : string
}.

Inductive View : Type :=
| Loading
| Loaded (cards : list SportCardView) (add : AddSportCard.Props) (dialog : DialogView).

(** [userSports.map(...)]: the first sport without an icon aborts the render. *)
Fixpoint render_cards (st : State) (l : list Sport) : completion (list SportCardView) :=
  match l with
  | [] => Normal []
  | sport :: r =>
      match getMatchingSportsIcon sport with
      | Throw m => Throw m
      | Normal icon =>
          match render_cards st r with
          | Throw m => Throw m
          | Normal cs =>
              Normal (mkCard sport icon (formatSportName sport)
                             ("Remove " ++ sport) (isDeleting st) :: cs)
          end
      end
  end.

Definition render_dialog (st : State) : DialogView :=
  mkDialog
    (match sportToDelete st with Some _ => true | None => false end)
    (match sportToDelete st with
     | Some sport =>
         if truthy sport then "Confirm " ++ formatSportName sport ++ " Deletion"
         else "Delete Sport"
     | None => "Delete Sport"
     end)
    (isDeleting st)
    (isDeleting st)
    (if isDeleting st then "Deleting…" else "Delete").

Definition render (st : State) : completion View :=
  if allLoading st || userLoading st then Normal Loading
  else
    match render_cards st (userSports st) with
    | Throw m => Throw m
    | Normal cs => Normal (Loaded cs (cardProps st) (render_dialog st))
    end.

(** *** Events

    User events go through the rendered controls: a control that is not on
    screen, or a button that is [disabled], runs no handler.  The Add Sport
    card is not a button and has no [disabled]: when nothing is available it
    only carries [aria-disabled] and [pointer-events: none], and its click
    handler, when it runs, opens the dialog all the same.  The other events
    are the answers of the query and mutation layer. *)

Inductive Event : Type :=
| AllSportsFetched (l : list Sport)
| UserSportsFetched (l : list Sport)
| ClickTrigger                       (* the Add Sport card's click handler *)
| AddDialogOpenChange (o : bool)
| SelectSport (v : string)
| ClickAdd
| AddSettled (ok : bool)             (* addSportAPI resolved / rejected *)
| ClickRemove (sport : Sport)
| ClickCancel
| ClickDelete
| DeleteDialogOpenChange (o : bool)
| DeleteSettled (ok : bool).         (* deleteSportAPI resolved / rejected *)

Definition on_screen (st : State) : bool :=
  match render st with
  | Normal (Loaded _ _ _) => true
  | _ => false
  end.

Definition dialog_open (st : State) : bool :=
  match sportToDelete st with Some _ => true | None => false end.

Definition withCard (f : AddSportCard.State -> AddSportCard.State)
                    (st : State) : State :=
  setAddCard (f (addCard st)) st.

Definition handle (e : Event) (st : State) : State * list Cmd :=
  match e with
  | AllSportsFetched l => (setAllSportsQuery (mkQuery (Some l) false) st, [])
  | UserSportsFetched l => (setUserSportsQuery (mkQuery (Some l) false) st, [])
  | ClickTrigger =>
      if on_screen st
      then (withCard (fun c => AddSportCard.mkState true
                                 (AddSportCard.selectedSport c)
                                 (AddSportCard.pendingSport c)) st, [])
      else (st, [])
  | AddDialogOpenChange o =>
      if on_screen st
      then (withCard (fun c => AddSportCard.mkState o
                                 (AddSportCard.selectedSport c)
                                 (AddSportCard.pendingSport c)) st, [])
      else (st, [])
  | SelectSport v =>
      if on_screen st && AddSportCard.open (addCard st)
      then (withCard (fun c => AddSportCard.mkState (AddSportCard.open c) v
                                 (AddSportCard.pendingSport c)) st, [])
      else (st, [])
  | ClickAdd =>
      if on_screen st && AddSportCard.open (addCard st)
         && negb (AddSportCard.button_disabled (cardProps st) (addCard st))
      then let (c, cmds) := AddSportCard.handleAdd (cardProps st) (addCard st) in
           (setAddCard c st, cmds)
      else (st, [])
  | AddSettled ok =>
      match isPending (addSportMutation st), variables (addSportMutation st) with
      | true, Some sport =>
          (setAddMutation (mkMutation false (Some sport)) st,
           if ok then add_onSuccess sport else add_onError)
      | _, _ => (st, [])
      end
  | ClickRemove sport =>
      if on_screen st && includes (userSports st) sport && negb (isDeleting st)
      then remove_onClick sport st
      else (st, [])
  | ClickCancel =>
      if on_screen st && dialog_open st && negb (isDeleting st)
      then cancel_onClick st
      else (st, [])
  | ClickDelete =>
      if on_screen st && dialog_open st && negb (isDeleting st)
      then delete_onClick st
      else (st, [])
  | DeleteDialogOpenChange o =>
      if on_screen st then dialog_onOpenChange o st else (st, [])
  | DeleteSettled ok =>
      match isPending (deleteSportMutation st), variables (deleteSportMutation st) with
      | true, Some sport =>
          (setDeleteMutation (mkMutation false (Some sport)) st,
           if ok then delete_onSuccess sport else delete_onError)
      | _, _ => (st, [])
      end
  end.

(** The mutation layer's reaction to a command: [mutate] starts the call and
    raises the in-flight flag; toasts and invalidations leave the state of
    the component alone (the refetch arrives later as [UserSportsFetched]). *)
Definition exec (c : Cmd) (st : State) : State :=
  match c with
  | MutateAdd sport => setAddMutation (mkMutation true (Some sport)) st
  | MutateDelete sport => setDeleteMutation (mkMutation true (Some sport)) st
  | _ => st
  end.

Definition exec_all (cmds : list Cmd) (st : State) : State :=
  fold_left (fun s c => exec c s) cmds st.

(** The effects that follow the re-render: the section's, and the card's
    when the card is mounted. *)
Definition run_effects (st : State) : State :=
  let st1 := effect st in
  if on_screen st1
  then setAddCard (AddSportCard.effect (cardProps st1) (addCard st1)) st1
  else st1.

Definition step (e : Event) (st : State) : State * list Cmd :=
  let (st1, cmds) := handle e st in
  (run_effects (exec_all cmds st1), cmds).

(** A run: the final state and every command issued, oldest first. *)
Fixpoint run (es : list Event) (st : State) : State * list Cmd :=
  match es with
  | [] => (st, [])
  | e :: r =>
      let (st1, c1) := step e st in
      let (st2, c2) := run r st1 in
      (st2, c1 ++ c2)
  end.

(** The component on mount: both queries loading, nothing in flight. *)
Definition mount : State :=
  mkState (mkQuery None true) (mkQuery None true) idle idle None false
          AddSportCard.initial.

(** The component once both lists are there. *)
Definition loaded (all user : list Sport) : State :=
  mkState (mkQuery (Some all) false) (mkQuery (Some user) false) idle idle
          None false AddSportCard.initial.

End UserSportSection.

Import UserSportSection.

(** * Notions used in the statements *)

(** An order-preserving sub-sequence: [sublist l m] when [l] is [m] with
    some elements dropped. *)
Inductive sublist {A : Type} : list A -> list A -> Prop :=
| sublist_nil : sublist [] []
| sublist_keep x l m : sublist l m -> sublist (x :: l) (x :: m)
| sublist_drop x l m : sublist l m -> sublist l (x :: m).

(** The add mutation in flight, as a number. *)
Definition inflight (st : State) : nat :=
  if isPending (addSportMutation st) then 1 else 0.

Definition add_settles (e : Event) : nat :=
  match e with
  | AddSettled _ => 1
  | _ => 0
  end.

Definition count_add_settles (es : list Event) : nat :=
  list_sum (map add_settles es).

(** The events that can end the pending window: the dialog being dismissed
    and the call settling. *)
Definition keeps_delete_window (e : Event) : bool :=
  match e with
  | DeleteDialogOpenChange false => false
  | DeleteSettled _ => false
  | _ => true
  end.

(** The section after the removal of baseball was confirmed, the call still
    outstanding. *)
Definition deleting_baseball : State :=
  fst (run [ClickRemove "baseball"; ClickDelete]
           (loaded known_sports ["baseball"; "tennis"])).

(** The delete mutation in flight, as a number, and the events that settle
    it. *)
Definition is_delete (c : Cmd) : bool :=
  match c with MutateDelete _ => true | _ => false end.

Definition delete_inflight (st : State) : nat :=
  if isPending (deleteSportMutation st) then 1 else 0.

Definition delete_settles (e : Event) : nat :=
  match e with
  | DeleteSettled _ => 1
  | _ => 0
  end.

Definition count_delete_settles (es : list Event) : nat :=
  list_sum (map delete_settles es).

(** Strings written in ASCII: every code unit below 128.  On these the
    embedding of [toUpperCase] is the function of the language. *)
Fixpoint ascii_only (s : string) : bool :=
  match s with
  | EmptyString => true
  | String c r => (nat_of_ascii c <? 128)%nat && ascii_only r
  end.

(** Classes of events. *)
Definition is_fetch (e : Event) : bool :=
  match e with
  | AllSportsFetched _ | UserSportsFetched _ => true
  | _ => false
  end.

Definition is_dismiss (e : Event) : bool :=
  match e with
  | DeleteDialogOpenChange false => true
  | _ => false
  end.

Definition is_toast (c : Cmd) : bool := is_success_toast c || is_error_toast c.

(** The component's marker follows the delete call: whenever the call is in
    flight the flag is set. *)
Definition flag_covers_call (st : State) : Prop :=
  isPending (deleteSportMutation st) = true -> deletingPending st = true.

(** The section after the add of tennis was rejected, and after the removal
    of baseball was rejected. *)
Definition add_rejected : State :=
  fst (run [ClickTrigger; SelectSport "tennis"; ClickAdd; AddSettled false]
           (loaded known_sports ["baseball"])).

Definition delete_rejected : State :=
  fst (run [ClickRemove "baseball"; ClickDelete; DeleteSettled false]
           (loaded known_sports ["baseball"])).

(** The section with the add of tennis dispatched, the call outstanding. *)
Definition adding_tennis : State :=
  fst (run [ClickTrigger; SelectSport "tennis"; ClickAdd]
           (loaded known_sports ["baseball"])).

(** * Properties *)

(** Case analysis on what a handler returned, and rewriting with the
    equations that analysis leaves. *)
Ltac split_handler H :=
  repeat match type of H with
    | (if ?b then _ else _) = _ => destruct b eqn:?
    | (let (_, _) := ?b in _) = _ => destruct b eqn:?
    | match ?b with _ => _ end = _ => destruct b eqn:?
    end.

Ltac use_equations :=
  repeat match goal with
    | E : ?x = _ |- context [?x] => rewrite E
    end.

(** ** Strings and lists *)

Lemma includes_In (l : list Sport) (x : Sport) :
  includes l x = true <-> In x l.
Proof.
  induction l as [|y r IH]; simpl.
  - split; [discriminate | tauto].
  - destruct (String.eqb_spec y x) as [->|Hne].
    + split; auto.
    + rewrite IH. split; [auto | intros [H|H]; [contradiction | exact H]].
Qed.

Lemma includes_false_not_In (l : list Sport) (x : Sport) :
  includes l x = false <-> ~ In x l.
Proof.
  rewrite <- includes_In. destruct (includes l x); split; intro H;
    congruence.
Qed.

Lemma upper_ascii_idempotent (c : ascii) :
  upper_ascii (upper_ascii c) = upper_ascii c.
Proof.
  destruct c as [[] [] [] [] [] [] [] []]; reflexivity.
Qed.

Lemma formatSportName_cons (c : ascii) (r : string) :
  formatSportName (String c r) = String (upper_ascii c) r.
Proof. reflexivity. Qed.

Lemma formatSportName_empty : formatSportName "" = "".
Proof. reflexivity. Qed.

Lemma filter_sublist {A : Type} (f : A -> bool) (l : list A) :
  sublist (filter f l) l.
Proof.
  induction l as [|x l IH]; simpl.
  - constructor.
  - destruct (f x); constructor; exact IH.
Qed.

Lemma count_occ_filter (f : Sport -> bool) (l : list Sport) (x : Sport) :
  count_occ string_dec (filter f l) x =
  if f x then count_occ string_dec l x else 0.
Proof.
  induction l as [|y l IH]; simpl.
  - destruct (f x); reflexivity.
  - destruct (f y) eqn:Hy; simpl; destruct (string_dec y x) as [->|Hne].
    + rewrite Hy in *. rewrite IH. reflexivity.
    + exact IH.
    + rewrite Hy in *. exact IH.
    + exact IH.
Qed.

(** ** The derived list *)

(** C1. For every pair of lists, [availableSports] holds exactly the elements
    of [allSports] that [userSports] does not contain; every render hands the
    card the list computed from the two query results of that render (the
    state of the component has no cell for it); and on
    [baseball, basketball, football] with [baseball] subscribed it is
    [basketball, football]. *)
Theorem availableSports_set_difference :
  (forall (all user : list Sport) (x : Sport),
      In x (availableSports all user) <-> In x all /\ ~ In x user)
  /\ (forall st : State,
         match render st with
         | Normal (Loaded _ add _) =>
             AddSportCard.p_availableSports add =
             availableSports (allSports st) (userSports st)
         | Normal Loading => True
         | Throw _ => True
         end)
  /\ availableSports ["baseball"; "basketball"; "football"] ["baseball"]
     = ["basketball"; "football"].
Proof.
  split; [|split].
  - intros all user x. unfold availableSports.
    rewrite filter_In, negb_true_iff, includes_false_not_In. tauto.
  - intro st. unfold render.
    destruct (allLoading st || userLoading st); [exact I|].
    destruct (render_cards st (userSports st)); [reflexivity | exact I].
  - reflexivity.
Qed.

(** C10. [availableSports] is an order-preserving sub-sequence of
    [allSports]; an element that [userSports] contains does not occur in it,
    and any other element occurs as many times as in [allSports]. *)
Theorem availableSports_order_and_multiplicity :
  forall (all user : list Sport),
    sublist (availableSports all user) all
    /\ forall x : Sport,
         count_occ string_dec (availableSports all user) x =
         if includes user x then 0 else count_occ string_dec all x.
Proof.
  intros all user. split.
  - apply filter_sublist.
  - intro x. unfold availableSports. rewrite count_occ_filter.
    destruct (includes user x); reflexivity.
Qed.

(** ** The display helpers *)

(** C8. The five sports of the closed set get five different icons, and the
    lookup throws exactly on the values outside the set: inside the set it
    returns an icon, outside it throws "No icon found for sport: ..." *)
Theorem getMatchingSportsIcon_closed_set :
  map getMatchingSportsIcon known_sports =
    [Normal FaBaseballBall; Normal FaBasketballBall; Normal FaFootballBall;
     Normal PiSoccerBall; Normal PiTennisBall]
  /\ NoDup (map getMatchingSportsIcon known_sports)
  /\ (forall s : string, throws (getMatchingSportsIcon s) = negb (is_sport s))
  /\ (forall s : string,
         if is_sport s
         then exists icon, getMatchingSportsIcon s = Normal icon
         else getMatchingSportsIcon s = Throw ("No icon found for sport: " ++ s)).
Proof.
  split; [reflexivity|]. split.
  - simpl. repeat constructor; simpl; intuition discriminate.
  - split; intro s; unfold getMatchingSportsIcon, is_sport, known_sports; simpl;
      destruct (String.eqb s "baseball"); simpl; eauto;
      destruct (String.eqb s "basketball"); simpl; eauto;
      destruct (String.eqb s "football"); simpl; eauto;
      destruct (String.eqb s "soccer"); simpl; eauto;
      destruct (String.eqb s "tennis"); simpl; eauto.
Qed.

(** C9. [formatSportName] is a total function that puts the first letter of
    its input in upper case and leaves the rest as it is, and applying it a
    second time changes nothing. *)
Theorem formatSportName_idempotent :
  (forall x : string, formatSportName (formatSportName x) = formatSportName x)
  /\ (forall (c : ascii) (r : string),
         formatSportName (String c r) = String (upper_ascii c) r)
  /\ formatSportName "" = ""
  /\ map formatSportName known_sports =
     ["Baseball"; "Basketball"; "Football"; "Soccer"; "Tennis"].
Proof.
  split; [|split; [|split]]; try reflexivity.
  intros [|c r].
  - reflexivity.
  - rewrite !formatSportName_cons, upper_ascii_idempotent. reflexivity.
Qed.

(** ** Frame lemmas for the effects and the mutation layer *)

Lemma effect_frame (st : State) :
  allSportsQuery (effect st) = allSportsQuery st
  /\ userSportsQuery (effect st) = userSportsQuery st
  /\ addSportMutation (effect st) = addSportMutation st
  /\ deleteSportMutation (effect st) = deleteSportMutation st
  /\ addCard (effect st) = addCard st.
Proof.
  unfold effect. destruct (sportToDelete st) as [sport|]; [|tauto].
  destruct (truthy sport && deletingPending st
            && negb (isPending (deleteSportMutation st))
            && negb (includes (userSports st) sport)); simpl; tauto.
Qed.

Lemma run_effects_frame (st : State) :
  allSportsQuery (run_effects st) = allSportsQuery st
  /\ userSportsQuery (run_effects st) = userSportsQuery st
  /\ addSportMutation (run_effects st) = addSportMutation st
  /\ deleteSportMutation (run_effects st) = deleteSportMutation st
  /\ sportToDelete (run_effects st) = sportToDelete (effect st)
  /\ deletingPending (run_effects st) = deletingPending (effect st).
Proof.
  unfold run_effects. destruct (effect_frame st) as (H1 & H2 & H3 & H4 & _).
  destruct (on_screen (effect st)); simpl; tauto.
Qed.

Lemma userSports_run_effects (st : State) :
  userSports (run_effects st) = userSports st.
Proof.
  unfold userSports. destruct (run_effects_frame st) as (_ & -> & _).
  reflexivity.
Qed.

(** Once both markers are cleared the section's effect has nothing to do. *)
Lemma effect_cleared (st : State) :
  sportToDelete st = None -> effect st = st.
Proof. unfold effect. intros ->. reflexivity. Qed.

(** While the delete call is in flight the effect leaves the markers. *)
Lemma effect_in_flight (st : State) :
  isPending (deleteSportMutation st) = true -> effect st = st.
Proof.
  unfold effect. intros ->. destruct (sportToDelete st) as [sport|]; [|reflexivity].
  rewrite andb_false_r. reflexivity.
Qed.

(** ** Counting dispatches of the add mutation *)

Lemma inflight_run_effects (st : State) : inflight (run_effects st) = inflight st.
Proof.
  unfold inflight. destruct (run_effects_frame st) as (_ & _ & -> & _).
  reflexivity.
Qed.

Lemma count_app (p : Cmd -> bool) (l m : list Cmd) :
  count p (l ++ m) = count p l + count p m.
Proof. unfold count. rewrite filter_app, length_app. reflexivity. Qed.

Lemma step_add_balance (e : Event) (st : State) :
  count is_add (snd (step e st)) + inflight st
  <= add_settles e + inflight (fst (step e st)).
Proof.
  unfold step.
  destruct (handle e st) as [st1 cmds] eqn:Hh. cbn [fst snd].
  rewrite inflight_run_effects.
  destruct e; cbn [handle add_settles] in Hh;
    unfold AddSportCard.handleAdd, remove_onClick, cancel_onClick,
      delete_onClick, handleDelete, dialog_onOpenChange in Hh;
    cbn [cardProps AddSportCard.isMutating] in Hh;
    split_handler Hh;
    injection Hh as <- <-; unfold inflight.
  all: try match goal with ok : bool |- _ => destruct ok end.
  all: try match goal with
         | H : (if ?b then _ else _) = (_, _) |- _ =>
             destruct b eqn:?; injection H as <- <-
         end.
  all: cbn; use_equations; try lia.
  destruct (isPending (addSportMutation st));
    [rewrite andb_false_r in *; discriminate | lia].
Qed.

Lemma run_add_balance (es : list Event) (st : State) :
  count is_add (snd (run es st)) + inflight st
  <= count_add_settles es + inflight (fst (run es st)).
Proof.
  revert st. induction es as [|e r IH]; intro st.
  - cbn. lia.
  - cbn [run]. pose proof (step_add_balance e st) as Hs.
    destruct (step e st) as [st1 c1]. specialize (IH st1).
    destruct (run r st1) as [st2 c2]. cbn [fst snd] in *.
    rewrite count_app. unfold count_add_settles in *.
    change (list_sum (map add_settles (e :: r)))
      with (add_settles e + list_sum (map add_settles r)).
    lia.
Qed.

(** ** The add flow *)

(** C7. [handleAdd] issues nothing and returns the state as it is when no
    sport is selected or an add is in flight; otherwise it issues one add
    mutation for the selected sport and records it in [pendingSport].  Over
    any run of events the add mutations dispatched, plus the one in flight at
    the start, are at most the add calls that settled plus the one in flight
    at the end: no second add is dispatched while one is in flight. *)
Theorem handleAdd_guard :
  (forall (p : AddSportCard.Props) (c : AddSportCard.State),
      AddSportCard.handleAdd p c =
      if negb (truthy (AddSportCard.selectedSport c)) || AddSportCard.isMutating p
      then (c, [])
      else (AddSportCard.mkState (AddSportCard.open c)
              (AddSportCard.selectedSport c)
              (Some (AddSportCard.selectedSport c)),
            [MutateAdd (AddSportCard.selectedSport c)]))
  /\ (forall (es : list Event) (st : State),
         count is_add (snd (run es st)) + inflight st
         <= count_add_settles es + inflight (fst (run es st)))
  /\ (forall st : State, inflight st <= 1).
Proof.
  split; [|split].
  - intros p c. unfold AddSportCard.handleAdd.
    destruct (truthy (AddSportCard.selectedSport c)),
             (AddSportCard.isMutating p); reflexivity.
  - exact run_add_balance.
  - intro st. unfold inflight.
    destruct (isPending (addSportMutation st)); lia.
Qed.

(** The scenario of the specification, run on the whole component: the add
    of tennis resolves, and the dialog closes when the refetched list has
    tennis in it, not before. *)
Example add_tennis_resolves :
  let before := [ClickTrigger; SelectSport "tennis"; ClickAdd; AddSettled true] in
  let st0 := loaded known_sports ["baseball"] in
  snd (run before st0) =
    [MutateAdd "tennis"; InvalidateQueries ["userSports"];
     ToastSuccess "Tennis was successfully added."]
  /\ AddSportCard.open (addCard (fst (run before st0))) = true
  /\ addCard (fst (run (before ++ [UserSportsFetched ["baseball"; "tennis"]]) st0))
     = AddSportCard.initial.
Proof. repeat split. Qed.

(** When the observed add call settles, the matching callback runs once:
    [onSuccess] with the sport that was dispatched, or [onError]; either way
    the in-flight flag is cleared and one toast is shown. *)
Lemma add_settled_runs_callback (ok : bool) (st : State) (s : Sport) :
  isPending (addSportMutation st) = true ->
  variables (addSportMutation st) = Some s ->
  snd (step (AddSettled ok) st) = (if ok then add_onSuccess s else add_onError)
  /\ isPending (addSportMutation (fst (step (AddSettled ok) st))) = false
  /\ count is_success_toast (snd (step (AddSettled ok) st))
     + count is_error_toast (snd (step (AddSettled ok) st)) = 1.
Proof.
  intros Hp Hv. unfold step. cbn [handle]. rewrite Hp, Hv. cbn [fst snd].
  match goal with
  | |- context [run_effects ?x] =>
      destruct (run_effects_frame x) as (_ & _ & -> & _)
  end.
  destruct ok; repeat split.
Qed.

(** While [pendingSport] is set the Add button is disabled, whatever the
    in-flight flag says, and a click on it reaches no handler. *)
Lemma pendingSport_disables_button (p : AddSportCard.Props) (c : AddSportCard.State) :
  truthy_opt (AddSportCard.pendingSport c) = true ->
  AddSportCard.button_disabled p c = true.
Proof.
  intro H. unfold AddSportCard.button_disabled, AddSportCard.beginningAdd.
  rewrite H. cbn. apply orb_true_r.
Qed.

Lemma click_add_ignored_while_pendingSport (st : State) :
  truthy_opt (AddSportCard.pendingSport (addCard st)) = true ->
  snd (step ClickAdd st) = [].
Proof.
  intro H. unfold step. cbn [handle].
  rewrite (pendingSport_disables_button (cardProps st) (addCard st) H).
  cbn [negb]. rewrite andb_false_r. reflexivity.
Qed.

(** C2, the code on a rejected add.  The user opens the dialog, selects
    tennis and confirms; the call is rejected.  One error toast is shown, the
    dialog stays open and nothing is in flight any more, but [pendingSport]
    still holds tennis and so the Add button stays disabled and keeps reading
    "Adding…": it is not re-enabled when [isMutating] clears. *)
Theorem add_reject_button_stays_disabled :
  let r := run [ClickTrigger; SelectSport "tennis"; ClickAdd; AddSettled false]
               (loaded known_sports ["baseball"]) in
  let st := fst r in
  snd r = [MutateAdd "tennis";
           ToastError "Could not add sport — please try again."]
  /\ count is_error_toast (snd r) = 1
  /\ AddSportCard.open (addCard st) = true
  /\ AddSportCard.isMutating (cardProps st) = false
  /\ AddSportCard.pendingSport (addCard st) = Some "tennis"
  /\ AddSportCard.button_disabled (cardProps st) (addCard st) = true
  /\ AddSportCard.button_label (cardProps st) (addCard st) = "Adding…"
  /\ snd (step ClickAdd st) = [].
Proof. repeat split. Qed.

(** ** The delete flow *)

(** C3, the code on a rejected delete.  The user asks to remove baseball and
    confirms; the call is rejected.  One error toast is shown and nothing is
    in flight any more, but [deletingPending] is still set (baseball is still
    subscribed, so the effect does not clear it) and the Delete and Cancel
    buttons stay disabled, Delete reading "Deleting…". *)
Theorem delete_reject_button_stays_disabled :
  let r := run [ClickRemove "baseball"; ClickDelete; DeleteSettled false]
               (loaded known_sports ["baseball"]) in
  let st := fst r in
  snd r = [MutateDelete "baseball";
           ToastError "Could not delete sport — please try again."]
  /\ count is_error_toast (snd r) = 1
  /\ isPending (deleteSportMutation st) = false
  /\ sportToDelete st = Some "baseball"
  /\ deletingPending st = true
  /\ dv_delete_disabled (render_dialog st) = true
  /\ dv_cancel_disabled (render_dialog st) = true
  /\ dv_delete_label (render_dialog st) = "Deleting…"
  /\ snd (step ClickDelete st) = [].
Proof. repeat split. Qed.

(** C5. The Cancel button's handler and the dialog's [onOpenChange(false)]
    issue no command (no delete mutation, no call to the server), clear
    [sportToDelete] and [deletingPending], and leave [userSports] and the
    delete mutation as they were; the same holds for the two events once the
    effects that follow them have run. *)
Theorem cancel_issues_no_call_and_clears :
  forall st : State,
    (let r := cancel_onClick st in
     snd r = [] /\ sportToDelete (fst r) = None
     /\ deletingPending (fst r) = false
     /\ userSports (fst r) = userSports st
     /\ deleteSportMutation (fst r) = deleteSportMutation st)
    /\ (let r := dialog_onOpenChange false st in
        snd r = [] /\ sportToDelete (fst r) = None
        /\ deletingPending (fst r) = false
        /\ userSports (fst r) = userSports st
        /\ deleteSportMutation (fst r) = deleteSportMutation st)
    /\ (let r := step ClickCancel st in
        snd r = [] /\ userSports (fst r) = userSports st
        /\ deleteSportMutation (fst r) = deleteSportMutation st
        /\ if on_screen st && dialog_open st && negb (isDeleting st)
           then sportToDelete (fst r) = None /\ deletingPending (fst r) = false
           else True)
    /\ (let r := step (DeleteDialogOpenChange false) st in
        snd r = [] /\ userSports (fst r) = userSports st
        /\ deleteSportMutation (fst r) = deleteSportMutation st
        /\ if on_screen st
           then sportToDelete (fst r) = None /\ deletingPending (fst r) = false
           else True).
Proof.
  intro st. split; [|split; [|split]]; cbn zeta.
  - repeat split.
  - repeat split.
  - unfold step. cbn [handle].
    destruct (on_screen st && dialog_open st && negb (isDeleting st));
      cbn [cancel_onClick exec_all fold_left fst snd];
      rewrite userSports_run_effects;
      match goal with
      | |- context [run_effects ?s] =>
          destruct (run_effects_frame s) as (_ & _ & _ & -> & Hs & Hp)
      end.
    + rewrite Hs, Hp, effect_cleared by reflexivity. repeat split.
    + repeat split.
  - unfold step. cbn [handle].
    destruct (on_screen st);
      cbn [dialog_onOpenChange negb exec_all fold_left fst snd];
      rewrite userSports_run_effects;
      match goal with
      | |- context [run_effects ?s] =>
          destruct (run_effects_frame s) as (_ & _ & _ & -> & Hs & Hp)
      end.
    + rewrite Hs, Hp, effect_cleared by reflexivity. repeat split.
    + repeat split.
Qed.

Lemma render_cards_flag (st : State) (l : list Sport) :
  match render_cards st l with
  | Normal cards =>
      Forall (fun c => cv_remove_disabled c = isDeleting st) cards
      /\ map cv_sport cards = l
  | Throw _ => True
  end.
Proof.
  induction l as [|sport r IH]; cbn [render_cards].
  - split; constructor.
  - destruct (getMatchingSportsIcon sport); [|exact I].
    destruct (render_cards st r) as [cs|]; [|exact I].
    destruct IH as [IH1 IH2]. split.
    + constructor; [reflexivity | exact IH1].
    + cbn. rewrite IH2. reflexivity.
Qed.

(** C6. In a state where the pending-delete flag is set, the render has one
    card per subscribed sport and the remove button of every card is
    disabled: they all read the one flag [isDeleting], which confirming a
    delete sets whatever the sport. *)
Theorem remove_buttons_disabled_while_deleting :
  forall (st : State) (cards : list SportCardView)
         (add : AddSportCard.Props) (dialog : DialogView),
    deletingPending st = true ->
    render st = Normal (Loaded cards add dialog) ->
    Forall (fun c => cv_remove_disabled c = true) cards
    /\ map cv_sport cards = userSports st
    /\ (forall (sport : Sport) (st0 : State),
           deletingPending (fst (handleDelete sport st0)) = true
           /\ snd (handleDelete sport st0) = [MutateDelete sport]).
Proof.
  intros st cards add dialog Hd Hr. unfold render in Hr.
  destruct (allLoading st || userLoading st); [discriminate|].
  pose proof (render_cards_flag st (userSports st)) as Hc.
  destruct (render_cards st (userSports st)) as [cs|]; [|discriminate].
  injection Hr as <- _ _. destruct Hc as [Hc1 Hc2].
  unfold isDeleting in Hc1. rewrite Hd in Hc1.
  repeat split; assumption.
Qed.

Lemma remove_buttons_disabled_while_deleting_witness :
  deletingPending deleting_baseball = true
  /\ exists cards add dialog,
       render deleting_baseball = Normal (Loaded cards add dialog)
       /\ Forall (fun c => cv_remove_disabled c = true) cards
       /\ map cv_sport cards = ["baseball"; "tennis"].
Proof.
  split; [reflexivity|].
  eexists _, _, _. split; [reflexivity|].
  destruct (remove_buttons_disabled_while_deleting deleting_baseball _ _ _
              eq_refl eq_refl) as (H1 & H2 & _).
  split; [exact H1 | exact H2].
Defined.

(** Confirming in the dialog raises the flag and starts the call. *)
Lemma confirm_sets_flag (st : State) (sport : Sport) :
  on_screen st = true ->
  sportToDelete st = Some sport ->
  truthy sport = true ->
  deletingPending st = false ->
  snd (step ClickDelete st) = [MutateDelete sport]
  /\ deletingPending (fst (step ClickDelete st)) = true
  /\ isPending (deleteSportMutation (fst (step ClickDelete st))) = true.
Proof.
  intros Hon Hs Ht Hd. unfold step. cbn [handle].
  unfold dialog_open, isDeleting, delete_onClick. rewrite Hon, Hs, Hd, Ht.
  cbn [andb negb handleDelete exec_all fold_left exec fst snd].
  match goal with
  | |- context [run_effects ?s] =>
      destruct (run_effects_frame s) as (_ & _ & _ & -> & _ & ->);
      rewrite (effect_in_flight s) by reflexivity
  end.
  repeat split.
Qed.

(** From the confirmation on, as long as the call is in flight and the dialog
    is not dismissed, the flag stays set: no other event clears it. *)
Lemma flag_kept_while_in_flight (e : Event) (st : State) :
  keeps_delete_window e = true ->
  deletingPending st = true ->
  isPending (deleteSportMutation st) = true ->
  deletingPending (fst (step e st)) = true
  /\ isPending (deleteSportMutation (fst (step e st))) = true.
Proof.
  intros He Hd Hp. unfold step.
  destruct (handle e st) as [st1 cmds] eqn:Hh. cbn [fst].
  assert (Hk : deletingPending (exec_all cmds st1) = true
               /\ isPending (deleteSportMutation (exec_all cmds st1)) = true).
  { destruct e; try discriminate He; cbn [handle] in Hh;
      unfold AddSportCard.handleAdd, remove_onClick, cancel_onClick,
        delete_onClick, handleDelete, dialog_onOpenChange, isDeleting in Hh;
      try rewrite Hd in Hh; try rewrite Hp in Hh;
      cbn [negb] in Hh; rewrite ?andb_false_r in Hh;
      split_handler Hh; try discriminate;
      injection Hh as <- <-;
      try match goal with ok : bool |- _ => destruct ok end;
      try match goal with
        | H : (if ?b then _ else _) = (_, _) |- _ =>
            destruct b; injection H as <- <-
        end;
      cbn; auto. }
  destruct Hk as [Hk1 Hk2].
  destruct (run_effects_frame (exec_all cmds st1)) as (_ & _ & _ & -> & _ & ->).
  rewrite effect_in_flight by exact Hk2. split; assumption.
Qed.

(** The flag is the component's own marker, not the mutation's: dismissing
    the dialog while the call is outstanding clears it, and the remove
    buttons are enabled again although the call has not settled. *)
Example dismissed_while_in_flight :
  let st := fst (step (DeleteDialogOpenChange false) deleting_baseball) in
  isPending (deleteSportMutation st) = true
  /\ deletingPending st = false
  /\ match render st with
     | Normal (Loaded cards _ _) => map cv_remove_disabled cards = [false; false]
     | _ => False
     end.
Proof. repeat split. Qed.

(** * The rest of the component *)

(** ** The derived list and the display name, further *)

Lemma icon_throws (s : string) :
  throws (getMatchingSportsIcon s) = negb (is_sport s).
Proof.
  unfold getMatchingSportsIcon, is_sport, known_sports; simpl;
    destruct (String.eqb s "baseball"); simpl; auto;
    destruct (String.eqb s "basketball"); simpl; auto;
    destruct (String.eqb s "football"); simpl; auto;
    destruct (String.eqb s "soccer"); simpl; auto;
    destruct (String.eqb s "tennis"); simpl; auto.
Qed.

Lemma includes_cons_eqb (s x : Sport) (u : list Sport) :
  includes (s :: u) x = String.eqb s x || includes u x.
Proof. cbn. destruct (String.eqb s x); reflexivity. Qed.

(** X1. One more subscription removes exactly that sport from the available
    list and keeps the others in place; with nothing subscribed the whole
    catalogue is available; filtering a second time changes nothing. *)
Theorem availableSports_subscribe_one :
  forall (all u : list Sport) (s : Sport),
    availableSports all (s :: u) =
      filter (fun x => negb (String.eqb s x)) (availableSports all u)
    /\ availableSports all [] = all
    /\ availableSports (availableSports all u) u = availableSports all u.
Proof.
  intros all u s. split; [|split].
  - unfold availableSports. induction all as [|x r IH]; [reflexivity|].
    cbn [filter]. rewrite includes_cons_eqb.
    destruct (String.eqb s x) eqn:E, (includes u x);
      cbn [negb orb filter]; rewrite ?E; cbn [negb]; rewrite IH; reflexivity.
  - unfold availableSports.
    rewrite (filter_ext _ (fun _ => true)) by reflexivity.
    induction all as [|x r IH]; [reflexivity|].
    cbn [filter]. rewrite IH. reflexivity.
  - unfold availableSports. induction all as [|x r IH]; [reflexivity|].
    cbn [filter]. destruct (includes u x) eqn:E; cbn [negb filter].
    + exact IH.
    + rewrite E. cbn [negb]. rewrite IH. reflexivity.
Qed.

(** X2. On an identifier written in ASCII, the display name has the
    length of the identifier and the same characters after the first one, is
    written in ASCII too, and is empty only for the empty string. *)
Theorem formatSportName_keeps_shape :
  forall x : string,
    ascii_only x = true ->
    String.length (formatSportName x) = String.length x
    /\ slice (formatSportName x) 1 = slice x 1
    /\ truthy (formatSportName x) = truthy x
    /\ ascii_only (formatSportName x) = true.
Proof.
  intros [|c r] Hx; [repeat split|].
  rewrite formatSportName_cons. cbn [ascii_only] in Hx |- *.
  apply andb_true_iff in Hx as [Hc Hr]. rewrite Hr, andb_true_r.
  repeat split.
  revert Hc. clear. destruct c as [[] [] [] [] [] [] [] []]; intro Hc;
    try discriminate Hc; reflexivity.
Qed.

Lemma formatSportName_keeps_shape_witness :
  ascii_only "tennis" = true
  /\ String.length (formatSportName "tennis") = 6
  /\ slice (formatSportName "tennis") 1 = "ennis".
Proof.
  split; [reflexivity|].
  destruct (formatSportName_keeps_shape "tennis" eq_refl) as (H1 & H2 & _).
  split; [exact H1 | exact H2].
Defined.

(** ** The render *)

Lemma render_cards_throws (st : State) (l : list Sport) :
  throws (render_cards st l) = negb (forallb is_sport l).
Proof.
  induction l as [|s r IH]; [reflexivity|].
  cbn [render_cards forallb]. pose proof (icon_throws s) as Hs.
  destruct (getMatchingSportsIcon s); cbn [throws] in Hs.
  - destruct (is_sport s); [|discriminate]. cbn [andb].
    destruct (render_cards st r); cbn [throws] in *; exact IH.
  - destruct (is_sport s); [discriminate|]. reflexivity.
Qed.

Lemma on_screen_queries (st : State) :
  on_screen st =
  negb (allLoading st || userLoading st) && forallb is_sport (userSports st).
Proof.
  unfold on_screen, render.
  destruct (allLoading st || userLoading st); [reflexivity|].
  pose proof (render_cards_throws st (userSports st)) as H.
  destruct (render_cards st (userSports st)); cbn [throws negb andb] in *;
    destruct (forallb is_sport (userSports st)); cbn in H; congruence.
Qed.

Lemma render_cards_message (st : State) (l : list Sport) :
  match render_cards st l with
  | Throw m =>
      exists s, In s l /\ is_sport s = false
                /\ m = ("No icon found for sport: " ++ s)%string
  | Normal _ => True
  end.
Proof.
  induction l as [|s r IH]; [exact I|].
  cbn [render_cards]. pose proof (icon_throws s) as Hs.
  unfold getMatchingSportsIcon in *.
  destruct (String.eqb s "baseball"), (String.eqb s "basketball"),
    (String.eqb s "football"), (String.eqb s "soccer"),
    (String.eqb s "tennis"); cbn [throws] in Hs;
    try (destruct (render_cards st r); [exact I|];
         destruct IH as (x & Hx & Hk & Hm); exists x;
         split; [right; exact Hx | split; assumption]).
  exists s. split; [left; reflexivity|]. split; [|reflexivity].
  destruct (is_sport s); [discriminate | reflexivity].
Qed.

(** X3. The render throws exactly when both lists have loaded and some
    subscribed sport is outside the closed set; the error then names such a
    sport.  One unknown subscription takes the whole section down. *)
Theorem render_throws_on_unknown_subscription :
  forall st : State,
    throws (render st) =
      negb (allLoading st || userLoading st)
      && negb (forallb is_sport (userSports st))
    /\ match render st with
       | Throw m =>
           exists s, In s (userSports st) /\ is_sport s = false
                     /\ m = ("No icon found for sport: " ++ s)%string
       | Normal _ => True
       end.
Proof.
  intro st. unfold render.
  destruct (allLoading st || userLoading st); [split; [reflexivity | exact I]|].
  pose proof (render_cards_throws st (userSports st)) as Ht.
  pose proof (render_cards_message st (userSports st)) as Hm.
  destruct (render_cards st (userSports st)); cbn [throws negb andb] in *;
    split; assumption.
Qed.

Lemma render_cards_content (st : State) (l : list Sport) :
  match render_cards st l with
  | Normal cards =>
      map cv_name cards = map formatSportName l
      /\ map (fun c => Normal (cv_icon c)) cards = map getMatchingSportsIcon l
      /\ map cv_remove_label cards = map (fun s => ("Remove " ++ s)%string) l
  | Throw _ => True
  end.
Proof.
  induction l as [|s r IH]; cbn [render_cards].
  - repeat split.
  - destruct (getMatchingSportsIcon s) as [icon|] eqn:E; [|exact I].
    destruct (render_cards st r) as [cs|]; [|exact I].
    destruct IH as (H1 & H2 & H3). cbn [map cv_name cv_icon cv_remove_label].
    rewrite H1, H2, H3, E. repeat split.
Qed.

(** X4. Once loaded (and no icon is missing) the render shows one card per
    subscribed sport, in the order of the list, each with the sport's icon,
    its display name and a remove button labelled with the identifier; the
    add card gets the props computed from the current state and the dialog
    is the one of the current state. *)
Theorem render_one_card_per_subscription :
  forall st : State,
    match render st with
    | Normal (Loaded cards add dialog) =>
        map cv_sport cards = userSports st
        /\ map cv_name cards = map formatSportName (userSports st)
        /\ map (fun c => Normal (cv_icon c)) cards
           = map getMatchingSportsIcon (userSports st)
        /\ map cv_remove_label cards
           = map (fun s => ("Remove " ++ s)%string) (userSports st)
        /\ add = cardProps st
        /\ dialog = render_dialog st
    | Normal Loading => allLoading st || userLoading st = true
    | Throw _ => True
    end.
Proof.
  intro st. unfold render.
  destruct (allLoading st || userLoading st); [reflexivity|].
  pose proof (render_cards_content st (userSports st)) as Hc.
  pose proof (render_cards_flag st (userSports st)) as Hf.
  destruct (render_cards st (userSports st)); [|exact I].
  destruct Hc as (H1 & H2 & H3), Hf as (_ & H4). repeat split; assumption.
Qed.


(** ** The add card *)

Lemma availableSports_nil_iff (all user : list Sport) :
  availableSports all user = [] <-> incl all user.
Proof.
  unfold availableSports, incl. induction all as [|x r IH]; cbn [filter].
  - split; [intros _ a [] | reflexivity].
  - destruct (includes user x) eqn:E; cbn [negb].
    + rewrite IH. apply includes_In in E. split.
      * intros H a [<-|Ha]; auto.
      * intros H a Ha. apply H. right. exact Ha.
    + split; [discriminate|]. intro H.
      assert (Hx : In x user) by (apply H; left; reflexivity).
      apply includes_In in Hx. congruence.
Qed.

(** X6. The Add Sport entry point is marked disabled (aria-disabled,
    half opacity, no pointer events) exactly when every sport of the
    catalogue is already subscribed, which is the case in particular while
    the catalogue is empty. *)
Theorem add_trigger_disabled_when_all_subscribed :
  forall st : State,
    (AddSportCard.trigger_disabled (cardProps st) = true
     <-> incl (allSports st) (userSports st))
    /\ (AddSportCard.trigger_disabled (cardProps st) = true
        <-> st_availableSports st = []).
Proof.
  intro st.
  assert (H : AddSportCard.trigger_disabled (cardProps st) = true
              <-> st_availableSports st = []).
  { unfold AddSportCard.trigger_disabled, cardProps.
    cbn [AddSportCard.p_availableSports].
    destruct (st_availableSports st); cbn; split; congruence. }
  split; [|exact H].
  rewrite H. apply availableSports_nil_iff.
Qed.

Lemma NoDup_filter (f : Sport -> bool) (l : list Sport) :
  NoDup l -> NoDup (filter f l).
Proof.
  induction 1 as [|x l Hx Hl IH]; cbn [filter]; [constructor|].
  destruct (f x); [|exact IH].
  constructor; [|exact IH]. rewrite filter_In. tauto.
Qed.

(** X7. The selector offers the available sports, in catalogue order, each
    under its display name; no subscribed sport is offered, and the option
    keys are distinct when the catalogue has no duplicate. *)
Theorem add_options_are_available_sports :
  forall st : State,
    map fst (AddSportCard.options (cardProps st))
    = availableSports (allSports st) (userSports st)
    /\ map snd (AddSportCard.options (cardProps st))
       = map formatSportName (availableSports (allSports st) (userSports st))
    /\ (forall o, In o (AddSportCard.options (cardProps st)) ->
                  In (fst o) (allSports st) /\ ~ In (fst o) (userSports st))
    /\ (NoDup (allSports st) ->
        NoDup (map fst (AddSportCard.options (cardProps st)))).
Proof.
  intro st.
  unfold AddSportCard.options, cardProps, st_availableSports.
  cbn [AddSportCard.p_availableSports].
  assert (H1 : forall l : list Sport,
             map fst (map (fun sport => (sport, formatSportName sport)) l) = l).
  { induction l as [|x r IH]; cbn; [|rewrite IH]; reflexivity. }
  split; [apply H1|]. split.
  - rewrite map_map. reflexivity.
  - split.
    + intros o Ho. apply in_map_iff in Ho as (x & <- & Hx). cbn [fst].
      unfold availableSports in Hx. apply filter_In in Hx as [Ha Hb].
      split; [exact Ha|]. apply includes_false_not_In.
      apply negb_true_iff. exact Hb.
    + intro Hn. rewrite H1. apply NoDup_filter. exact Hn.
Qed.

(** ** The effects *)

Lemma card_effect_idempotent (p : AddSportCard.Props) (c : AddSportCard.State) :
  AddSportCard.effect p (AddSportCard.effect p c) = AddSportCard.effect p c.
Proof.
  unfold AddSportCard.effect.
  destruct (AddSportCard.pendingSport c) as [s|] eqn:E.
  - destruct (truthy s && negb (AddSportCard.isMutating p)
              && negb (includes (AddSportCard.p_availableSports p) s)) eqn:B.
    + reflexivity.
    + rewrite E, B. reflexivity.
  - rewrite E. reflexivity.
Qed.

Lemma effect_idempotent (st : State) : effect (effect st) = effect st.
Proof.
  unfold effect at 2 3.
  destruct (sportToDelete st) as [s|] eqn:E.
  - destruct (truthy s && deletingPending st
              && negb (isPending (deleteSportMutation st))
              && negb (includes (userSports st) s)) eqn:B.
    + reflexivity.
    + unfold effect. rewrite E, B. reflexivity.
  - unfold effect. rewrite E. reflexivity.
Qed.

Lemma effect_setAddCard (c : AddSportCard.State) (st : State) :
  effect (setAddCard c st) = setAddCard c (effect st).
Proof.
  destruct st as [qa qu ma md sd dp ac].
  unfold effect, setAddCard, setDeletingPending, setSportToDelete, userSports.
  cbn. destruct sd as [s|]; [|reflexivity].
  destruct (truthy s && dp && negb (isPending md)
            && negb (includes (data_or_empty qu) s)); reflexivity.
Qed.

(** X8. The effects settle in one pass: running them again after they ran
    changes nothing, so a re-render caused by their own state updates
    triggers no further update. *)
Theorem run_effects_idempotent :
  forall st : State, run_effects (run_effects st) = run_effects st.
Proof.
  intro st. unfold run_effects.
  pose proof (effect_idempotent st) as Hi.
  generalize dependent (effect st). intros st1 Hi.
  assert (Hs : forall c, on_screen (setAddCard c st1) = on_screen st1).
  { intro c. rewrite !on_screen_queries. reflexivity. }
  destruct (on_screen st1) eqn:Ho.
  - rewrite effect_setAddCard, Hi, Hs.
    change (cardProps (setAddCard (AddSportCard.effect (cardProps st1) (addCard st1)) st1))
      with (cardProps st1).
    cbn [addCard setAddCard]. rewrite card_effect_idempotent. reflexivity.
  - rewrite Hi, Ho. reflexivity.
Qed.

(** ** Runs of events *)

(** Case analysis on the handler an event reaches. *)
Ltac handle_cases Hh :=
  cbn [handle] in Hh;
  unfold AddSportCard.handleAdd, remove_onClick, cancel_onClick,
    delete_onClick, handleDelete, dialog_onOpenChange, withCard in Hh;
  split_handler Hh;
  injection Hh as <- <-;
  try match goal with ok : bool |- _ => destruct ok end;
  try match goal with
    | H : (if ?b then _ else _) = (_, _) |- _ =>
        destruct b eqn:?; injection H as <- <-
    end.

Lemma step_keeps_queries (e : Event) (st : State) :
  is_fetch e = false ->
  allSportsQuery (fst (step e st)) = allSportsQuery st
  /\ userSportsQuery (fst (step e st)) = userSportsQuery st.
Proof.
  intro He. unfold step.
  destruct (handle e st) as [st1 cmds] eqn:Hh. cbn [fst].
  destruct (run_effects_frame (exec_all cmds st1)) as (-> & -> & _).
  destruct e; try discriminate He; handle_cases Hh; cbn; auto.
Qed.

(** X9. The component never writes the two lists itself: over any run
    without a fetch delivering, whatever the user does and however the
    mutations settle, [allSports], [userSports] and with them the available
    sports are the ones of the start. *)
Theorem lists_change_only_by_fetch :
  forall (es : list Event) (st : State),
    forallb (fun e => negb (is_fetch e)) es = true ->
    allSports (fst (run es st)) = allSports st
    /\ userSports (fst (run es st)) = userSports st
    /\ st_availableSports (fst (run es st)) = st_availableSports st.
Proof.
  induction es as [|e r IH]; intros st Hes.
  - repeat split.
  - cbn [forallb] in Hes. apply andb_true_iff in Hes as [He Hr].
    apply negb_true_iff in He.
    cbn [run]. destruct (step_keeps_queries e st He) as [Ha Hu].
    destruct (step e st) as [st1 c1]. cbn [fst] in Ha, Hu.
    specialize (IH st1 Hr). destruct (run r st1) as [st2 c2].
    cbn [fst] in *. destruct IH as (I1 & I2 & I3).
    unfold st_availableSports, allSports, userSports in *.
    rewrite <- Ha, <- Hu. repeat split; assumption.
Qed.

Lemma lists_change_only_by_fetch_witness :
  forallb (fun e => negb (is_fetch e))
    [ClickRemove "baseball"; ClickDelete; DeleteSettled true] = true
  /\ userSports (fst (run [ClickRemove "baseball"; ClickDelete; DeleteSettled true]
                          (loaded known_sports ["baseball"]))) = ["baseball"].
Proof.
  split; [reflexivity|].
  exact (proj1 (proj2 (lists_change_only_by_fetch
                         [ClickRemove "baseball"; ClickDelete; DeleteSettled true]
                         (loaded known_sports ["baseball"]) eq_refl))).
Defined.

Lemma step_toasts (e : Event) (st : State) :
  count is_toast (snd (step e st)) <= add_settles e + delete_settles e
  /\ count is_invalidate (snd (step e st))
     = count is_success_toast (snd (step e st)).
Proof.
  unfold step. destruct (handle e st) as [st1 cmds] eqn:Hh. cbn [snd].
  destruct e; handle_cases Hh; cbn; auto.
Qed.


(** ** Delete calls in flight *)

Lemma delete_inflight_run_effects (st : State) :
  delete_inflight (run_effects st) = delete_inflight st.
Proof.
  unfold delete_inflight.
  destruct (run_effects_frame st) as (_ & _ & _ & -> & _). reflexivity.
Qed.

Lemma flag_covers_call_effects (st : State) :
  flag_covers_call st -> flag_covers_call (run_effects st).
Proof.
  unfold flag_covers_call.
  destruct (run_effects_frame st) as (_ & _ & _ & -> & _ & ->).
  intros H Hp. rewrite effect_in_flight by exact Hp. exact (H Hp).
Qed.

Lemma step_delete_balance (e : Event) (st : State) :
  is_dismiss e = false ->
  flag_covers_call st ->
  flag_covers_call (fst (step e st))
  /\ count is_delete (snd (step e st)) + delete_inflight st
     <= delete_settles e + delete_inflight (fst (step e st)).
Proof.
  intros He Hf. unfold step.
  destruct (handle e st) as [st1 cmds] eqn:Hh. cbn [fst snd].
  rewrite delete_inflight_run_effects.
  cut (flag_covers_call (exec_all cmds st1)
       /\ count is_delete cmds + delete_inflight st
          <= delete_settles e + delete_inflight (exec_all cmds st1)).
  { intros [H1 H2]. split; [apply flag_covers_call_effects; exact H1 | exact H2]. }
  unfold flag_covers_call, delete_inflight, isDeleting in *.
  destruct e; try discriminate He; handle_cases Hh;
    cbn in *; use_equations;
    try (split; [auto; intro; try discriminate; auto | try lia]).
  all: try (destruct (isPending (deleteSportMutation st)); lia).
  all: match goal with
       | G : _ && negb (isDeleting _) = true |- _ =>
           apply andb_true_iff in G as [_ Hn];
           apply negb_true_iff in Hn; unfold isDeleting in Hn
       end.
  - rewrite Hf in Hn by assumption. discriminate.
  - destruct (isPending (deleteSportMutation st)) eqn:E; [|lia].
    rewrite Hf in Hn by reflexivity. discriminate.
Qed.

(** X11. As long as the confirmation dialog is not dismissed, at most one
    delete call is in flight: from a state where the flag covers the call,
    the deletes dispatched over a run, plus the one in flight at the start,
    are at most the delete calls that settled plus the one in flight at the
    end, and the flag still covers the call. *)
Theorem one_delete_in_flight_without_dismissal :
  forall (es : list Event) (st : State),
    forallb (fun e => negb (is_dismiss e)) es = true ->
    flag_covers_call st ->
    flag_covers_call (fst (run es st))
    /\ count is_delete (snd (run es st)) + delete_inflight st
       <= count_delete_settles es + delete_inflight (fst (run es st)).
Proof.
  induction es as [|e r IH]; intros st Hes Hf.
  - cbn. split; [exact Hf | lia].
  - cbn [forallb] in Hes. apply andb_true_iff in Hes as [He Hr].
    apply negb_true_iff in He.
    cbn [run]. destruct (step_delete_balance e st He Hf) as [Hf1 Hb].
    destruct (step e st) as [st1 c1]. cbn [fst snd] in *.
    specialize (IH st1 Hr Hf1). destruct (run r st1) as [st2 c2].
    cbn [fst snd] in *. destruct IH as [Hf2 Hb2]. split; [exact Hf2|].
    rewrite count_app. unfold count_delete_settles in *.
    change (list_sum (map delete_settles (e :: r)))
      with (delete_settles e + list_sum (map delete_settles r)).
    lia.
Qed.

Lemma step_toast_balance (e : Event) (st : State) :
  is_dismiss e = false ->
  flag_covers_call st ->
  count is_toast (snd (step e st))
  + inflight (fst (step e st)) + delete_inflight (fst (step e st))
  = count is_add (snd (step e st)) + count is_delete (snd (step e st))
    + inflight st + delete_inflight st.
Proof.
  intros He Hf. unfold step.
  destruct (handle e st) as [st1 cmds] eqn:Hh. cbn [fst snd].
  rewrite delete_inflight_run_effects, inflight_run_effects.
  unfold flag_covers_call, delete_inflight, inflight in *.
  destruct e; try discriminate He; cbn [handle] in Hh;
    cbn [cardProps AddSportCard.isMutating] in Hh; handle_cases Hh;
    cbn in *; use_equations; try reflexivity.
  all: try (destruct (isPending (addSportMutation st)),
                     (isPending (deleteSportMutation st)); reflexivity).
  all: try match goal with
       | G : _ && negb (isDeleting _) = true |- _ =>
           apply andb_true_iff in G as [_ Hn];
           apply negb_true_iff in Hn; unfold isDeleting in Hn;
           destruct (isPending (deleteSportMutation st)) eqn:E;
           [rewrite Hf in Hn by reflexivity; discriminate|];
           destruct (isPending (addSportMutation st)); reflexivity
       end.
  all: destruct (isPending (addSportMutation st)) eqn:E;
    [rewrite andb_false_r in *; discriminate|];
    destruct (isPending (deleteSportMutation st)); reflexivity.
Qed.

(** X10. Every toast belongs to a call that settled.  As long as the
    confirmation dialog is not dismissed (so that calls do not overlap), over
    any run the toasts shown are as many as the calls dispatched plus those
    in flight at the start minus those in flight at the end; they are at
    most the settle events; and the invalidations of the cache are as many
    as the success toasts (none on a failure, none on a user action). *)
Theorem toasts_only_when_a_mutation_settles :
  forall (es : list Event) (st : State),
    forallb (fun e => negb (is_dismiss e)) es = true ->
    flag_covers_call st ->
    count is_toast (snd (run es st))
    + inflight (fst (run es st)) + delete_inflight (fst (run es st))
    = count is_add (snd (run es st)) + count is_delete (snd (run es st))
      + inflight st + delete_inflight st
    /\ count is_toast (snd (run es st))
       <= count_add_settles es + count_delete_settles es
    /\ count is_invalidate (snd (run es st))
       = count is_success_toast (snd (run es st)).
Proof.
  induction es as [|e r IH]; intros st Hes Hf.
  - cbn. split; [lia|]. split; [lia | reflexivity].
  - cbn [forallb] in Hes. apply andb_true_iff in Hes as [He Hr].
    apply negb_true_iff in He. cbn [run].
    pose proof (step_toast_balance e st He Hf) as Hb.
    destruct (step_delete_balance e st He Hf) as [Hf1 _].
    pose proof (step_toasts e st) as [H1 H2].
    destruct (step e st) as [st1 c1]. cbn [fst snd] in *.
    specialize (IH st1 Hr Hf1). destruct (run r st1) as [st2 c2].
    cbn [fst snd] in *. destruct IH as (I0 & I1 & I2).
    rewrite !count_app. unfold count_add_settles, count_delete_settles in *.
    change (list_sum (map add_settles (e :: r)))
      with (add_settles e + list_sum (map add_settles r)).
    change (list_sum (map delete_settles (e :: r)))
      with (delete_settles e + list_sum (map delete_settles r)).
    repeat split; lia.
Qed.

Lemma toasts_only_when_a_mutation_settles_witness :
  let es := [ClickTrigger; SelectSport "tennis"; ClickAdd;
             ClickRemove "baseball"; ClickDelete; AddSettled true;
             DeleteSettled false; ClickDelete] in
  let st := loaded known_sports ["baseball"] in
  forallb (fun e => negb (is_dismiss e)) es = true
  /\ flag_covers_call st
  /\ snd (run es st) =
       [MutateAdd "tennis"; MutateDelete "baseball";
        InvalidateQueries ["userSports"];
        ToastSuccess "Tennis was successfully added.";
        ToastError "Could not delete sport — please try again."]
  /\ count is_toast (snd (run es st)) + inflight (fst (run es st))
     + delete_inflight (fst (run es st))
     = count is_add (snd (run es st)) + count is_delete (snd (run es st))
       + inflight st + delete_inflight st.
Proof.
  cbn zeta. split; [reflexivity|].
  assert (Hf : flag_covers_call (loaded known_sports ["baseball"]))
    by (intro H; discriminate H).
  split; [exact Hf|]. split; [reflexivity|].
  exact (proj1 (toasts_only_when_a_mutation_settles
                  [ClickTrigger; SelectSport "tennis"; ClickAdd;
                   ClickRemove "baseball"; ClickDelete; AddSettled true;
                   DeleteSettled false; ClickDelete]
                  (loaded known_sports ["baseball"]) eq_refl Hf)).
Defined.

Lemma one_delete_in_flight_without_dismissal_witness :
  let es := [ClickRemove "baseball"; ClickDelete; ClickDelete;
             ClickRemove "tennis"; ClickDelete] in
  let st := loaded known_sports ["baseball"; "tennis"] in
  forallb (fun e => negb (is_dismiss e)) es = true
  /\ flag_covers_call st
  /\ snd (run es st) = [MutateDelete "baseball"]
  /\ count is_delete (snd (run es st)) + delete_inflight st
     <= count_delete_settles es + delete_inflight (fst (run es st)).
Proof.
  cbn zeta. split; [reflexivity|].
  assert (Hf : flag_covers_call (loaded known_sports ["baseball"; "tennis"]))
    by (intro H; discriminate H).
  split; [exact Hf|]. split; [reflexivity|].
  exact (proj2 (one_delete_in_flight_without_dismissal
                  [ClickRemove "baseball"; ClickDelete; ClickDelete;
                   ClickRemove "tennis"; ClickDelete]
                  (loaded known_sports ["baseball"; "tennis"]) eq_refl Hf)).
Defined.

(** The dismissal matters: after it the remove buttons work again while the
    first call is still outstanding, and a second delete can be confirmed. *)
Example second_delete_after_dismissal :
  snd (run [ClickRemove "baseball"; ClickDelete; DeleteDialogOpenChange false;
            ClickRemove "tennis"; ClickDelete]
           (loaded known_sports ["baseball"; "tennis"]))
  = [MutateDelete "baseball"; MutateDelete "tennis"].
Proof. reflexivity. Qed.

(** ** A pending marker that nothing clears *)

Lemma card_effect_keeps_offered (p : AddSportCard.Props) (c : AddSportCard.State)
      (s : Sport) :
  AddSportCard.pendingSport c = Some s ->
  includes (AddSportCard.p_availableSports p) s = true ->
  AddSportCard.effect p c = c.
Proof.
  intros Hp Hi. unfold AddSportCard.effect. rewrite Hp, Hi.
  cbn [negb]. rewrite andb_false_r. reflexivity.
Qed.

Lemma run_effects_keeps_card (st : State) (s : Sport) :
  AddSportCard.pendingSport (addCard st) = Some s ->
  includes (st_availableSports st) s = true ->
  addCard (run_effects st) = addCard st.
Proof.
  intros Hp Hi. unfold run_effects.
  destruct (effect_frame st) as (Ha & Hu & Hm & _ & Hc).
  destruct (on_screen (effect st)); [|exact Hc].
  cbn [addCard setAddCard]. rewrite Hc.
  apply (card_effect_keeps_offered _ _ s); [exact Hp|].
  unfold cardProps, st_availableSports, allSports, userSports in *.
  cbn [AddSportCard.p_availableSports]. rewrite Ha, Hu. exact Hi.
Qed.

Lemma step_keeps_pending_add (e : Event) (st : State) (s : Sport) :
  is_fetch e = false ->
  truthy s = true ->
  AddSportCard.pendingSport (addCard st) = Some s ->
  includes (st_availableSports st) s = true ->
  AddSportCard.pendingSport (addCard (fst (step e st))) = Some s
  /\ includes (st_availableSports (fst (step e st))) s = true
  /\ count is_add (snd (step e st)) = 0.
Proof.
  intros He Ht Hp Hi.
  destruct (step_keeps_queries e st He) as [Ha Hu].
  assert (Hav : st_availableSports (fst (step e st)) = st_availableSports st).
  { unfold st_availableSports, allSports, userSports. rewrite Ha, Hu.
    reflexivity. }
  rewrite Hav. clear Ha Hu Hav.
  assert (Hd : AddSportCard.button_disabled (cardProps st) (addCard st) = true).
  { apply pendingSport_disables_button. rewrite Hp. exact Ht. }
  unfold step. destruct (handle e st) as [st1 cmds] eqn:Hh. cbn [fst snd].
  cut (AddSportCard.pendingSport (addCard (exec_all cmds st1)) = Some s
       /\ st_availableSports (exec_all cmds st1) = st_availableSports st
       /\ count is_add cmds = 0).
  { intros (H1 & H2 & H3).
    rewrite (run_effects_keeps_card _ s) by (rewrite ?H2; assumption).
    repeat split; assumption. }
  destruct e; try discriminate He; cbn [handle] in Hh;
    try rewrite Hd in Hh; cbn [negb] in Hh; rewrite ?andb_false_r in Hh;
    handle_cases Hh; cbn; auto.
Qed.

(** X12. A pending add that nothing clears blocks the add flow: if
    [pendingSport] holds a sport that is still among the available ones (as
    after a rejected add), then over any run in which no fetch delivers, no
    add mutation is dispatched and [pendingSport] stays, whatever the user
    clicks, selects, closes or reopens. *)
Theorem pending_add_blocks_further_adds :
  forall (es : list Event) (st : State) (s : Sport),
    forallb (fun e => negb (is_fetch e)) es = true ->
    truthy s = true ->
    AddSportCard.pendingSport (addCard st) = Some s ->
    includes (st_availableSports st) s = true ->
    count is_add (snd (run es st)) = 0
    /\ AddSportCard.pendingSport (addCard (fst (run es st))) = Some s
    /\ AddSportCard.button_disabled (cardProps (fst (run es st)))
         (addCard (fst (run es st))) = true.
Proof.
  induction es as [|e r IH]; intros st s Hes Ht Hp Hi.
  - cbn. split; [reflexivity|]. split; [exact Hp|].
    apply pendingSport_disables_button. rewrite Hp. exact Ht.
  - cbn [forallb] in Hes. apply andb_true_iff in Hes as [He Hr].
    apply negb_true_iff in He. cbn [run].
    destruct (step_keeps_pending_add e st s He Ht Hp Hi) as (H1 & H2 & H3).
    destruct (step e st) as [st1 c1]. cbn [fst snd] in *.
    specialize (IH st1 s Hr Ht H1 H2). destruct (run r st1) as [st2 c2].
    cbn [fst snd] in *. destruct IH as (I1 & I2 & I3).
    rewrite count_app, H3, I1. repeat split; assumption.
Qed.

Lemma pending_add_blocks_further_adds_witness :
  let es := [AddDialogOpenChange false; ClickTrigger; SelectSport "soccer";
             ClickAdd; AddSettled true; ClickAdd] in
  forallb (fun e => negb (is_fetch e)) es = true
  /\ truthy "tennis" = true
  /\ AddSportCard.pendingSport (addCard add_rejected) = Some "tennis"
  /\ includes (st_availableSports add_rejected) "tennis" = true
  /\ count is_add (snd (run es add_rejected)) = 0
  /\ AddSportCard.pendingSport (addCard (fst (run es add_rejected)))
     = Some "tennis".
Proof.
  cbn zeta. do 4 (split; [reflexivity|]).
  destruct (pending_add_blocks_further_adds
              [AddDialogOpenChange false; ClickTrigger; SelectSport "soccer";
               ClickAdd; AddSettled true; ClickAdd]
              add_rejected "tennis" eq_refl eq_refl eq_refl eq_refl)
    as (H1 & H2 & _).
  split; [exact H1 | exact H2].
Defined.

Lemma effect_keeps_subscribed (st : State) (s : Sport) :
  sportToDelete st = Some s ->
  includes (userSports st) s = true ->
  effect st = st.
Proof.
  intros Hs Hi. unfold effect. rewrite Hs, Hi. cbn [negb].
  rewrite andb_false_r. reflexivity.
Qed.

Lemma step_keeps_pending_delete (e : Event) (st : State) (s : Sport) :
  is_fetch e = false ->
  is_dismiss e = false ->
  sportToDelete st = Some s ->
  deletingPending st = true ->
  includes (userSports st) s = true ->
  sportToDelete (fst (step e st)) = Some s
  /\ deletingPending (fst (step e st)) = true
  /\ includes (userSports (fst (step e st))) s = true
  /\ count is_delete (snd (step e st)) = 0.
Proof.
  intros He Hd Hs Hp Hi.
  destruct (step_keeps_queries e st He) as [_ Hu].
  assert (Hus : userSports (fst (step e st)) = userSports st).
  { unfold userSports. rewrite Hu. reflexivity. }
  rewrite Hus. clear Hu Hus.
  unfold step. destruct (handle e st) as [st1 cmds] eqn:Hh. cbn [fst snd].
  cut (sportToDelete (exec_all cmds st1) = Some s
       /\ deletingPending (exec_all cmds st1) = true
       /\ userSports (exec_all cmds st1) = userSports st
       /\ count is_delete cmds = 0).
  { intros (H1 & H2 & H3 & H4).
    destruct (run_effects_frame (exec_all cmds st1)) as (_ & _ & _ & _ & -> & ->).
    rewrite (effect_keeps_subscribed _ s) by (rewrite ?H3; assumption).
    repeat split; assumption. }
  destruct e; try discriminate He; try discriminate Hd; cbn [handle] in Hh;
    unfold isDeleting in Hh; try rewrite Hp in Hh; cbn [negb] in Hh;
    rewrite ?andb_false_r in Hh;
    handle_cases Hh; cbn; auto; try discriminate.
Qed.

(** X13. A pending delete ends only by a dismissal or a refetch: if
    [deletingPending] is set for a sport that is still subscribed (as while
    the call is outstanding, or after it was rejected), then over any run
    without a fetch delivering and without the dialog being dismissed, no
    delete is dispatched, the markers stay, and the Delete and Cancel
    buttons stay disabled. *)
Theorem pending_delete_blocks_until_dismissal :
  forall (es : list Event) (st : State) (s : Sport),
    forallb (fun e => negb (is_fetch e) && negb (is_dismiss e)) es = true ->
    sportToDelete st = Some s ->
    deletingPending st = true ->
    includes (userSports st) s = true ->
    count is_delete (snd (run es st)) = 0
    /\ sportToDelete (fst (run es st)) = Some s
    /\ deletingPending (fst (run es st)) = true
    /\ dv_delete_disabled (render_dialog (fst (run es st))) = true
    /\ dv_cancel_disabled (render_dialog (fst (run es st))) = true.
Proof.
  induction es as [|e r IH]; intros st s Hes Hs Hp Hi.
  - cbn. unfold isDeleting. rewrite Hp. repeat split; assumption.
  - cbn [forallb] in Hes. apply andb_true_iff in Hes as [He Hr].
    apply andb_true_iff in He as [He1 He2].
    apply negb_true_iff in He1, He2. cbn [run].
    destruct (step_keeps_pending_delete e st s He1 He2 Hs Hp Hi)
      as (H1 & H2 & H3 & H4).
    destruct (step e st) as [st1 c1]. cbn [fst snd] in *.
    specialize (IH st1 s Hr H1 H2 H3). destruct (run r st1) as [st2 c2].
    cbn [fst snd] in *. destruct IH as (I1 & I2 & I3 & I4 & I5).
    unfold count in *. rewrite filter_app, length_app, H4, I1.
    repeat split; assumption.
Qed.

Lemma pending_delete_blocks_until_dismissal_witness :
  let es := [ClickDelete; ClickCancel; ClickRemove "baseball";
             DeleteDialogOpenChange true; ClickDelete] in
  forallb (fun e => negb (is_fetch e) && negb (is_dismiss e)) es = true
  /\ sportToDelete delete_rejected = Some "baseball"
  /\ deletingPending delete_rejected = true
  /\ includes (userSports delete_rejected) "baseball" = true
  /\ count is_delete (snd (run es delete_rejected)) = 0
  /\ deletingPending (fst (run es delete_rejected)) = true.
Proof.
  cbn zeta. do 4 (split; [reflexivity|]).
  destruct (pending_delete_blocks_until_dismissal
              [ClickDelete; ClickCancel; ClickRemove "baseball";
               DeleteDialogOpenChange true; ClickDelete]
              delete_rejected "baseball" eq_refl eq_refl eq_refl eq_refl)
    as (H1 & _ & H2 & _).
  split; [exact H1 | exact H2].
Defined.

(** ** The success paths, end to end *)

Lemma includes_availableSports (all user : list Sport) (s : Sport) :
  includes (availableSports all user) s = includes all s && negb (includes user s).
Proof.
  destruct (includes (availableSports all user) s) eqn:E.
  - apply includes_In in E. unfold availableSports in E.
    apply filter_In in E as [Ha Hb]. apply includes_In in Ha.
    rewrite Ha, Hb. reflexivity.
  - destruct (includes all s) eqn:Ha; [|reflexivity].
    destruct (includes user s) eqn:Hu; [reflexivity|].
    exfalso. apply includes_false_not_In in E. apply E.
    unfold availableSports. apply filter_In. split.
    + apply includes_In. exact Ha.
    + rewrite Hu. reflexivity.
Qed.

Lemma addCard_run_effects (st : State) :
  addCard (run_effects st) =
  if on_screen st then AddSportCard.effect (cardProps st) (addCard st)
  else addCard st.
Proof.
  unfold run_effects. destruct (effect_frame st) as (Ha & Hu & Hm & _ & Hc).
  assert (Ho : on_screen (effect st) = on_screen st).
  { rewrite !on_screen_queries. unfold allLoading, userLoading, userSports.
    rewrite Ha, Hu. reflexivity. }
  assert (Hp : cardProps (effect st) = cardProps st).
  { unfold cardProps, st_availableSports, allSports, userSports.
    rewrite Ha, Hu, Hm. reflexivity. }
  rewrite Ho. destruct (on_screen st); [|exact Hc].
  cbn [addCard setAddCard]. rewrite Hp, Hc. reflexivity.
Qed.

(** No handler touches a [pendingSport] that is set: the one that could,
    [handleAdd], is behind the disabled Add button. *)
Lemma step_keeps_pendingSport_before_effects (e : Event) (st : State) (s : Sport) :
  truthy s = true ->
  AddSportCard.pendingSport (addCard st) = Some s ->
  AddSportCard.pendingSport
    (addCard (exec_all (snd (handle e st)) (fst (handle e st)))) = Some s.
Proof.
  intros Ht Hp.
  assert (Hd : AddSportCard.button_disabled (cardProps st) (addCard st) = true).
  { apply pendingSport_disables_button. rewrite Hp. exact Ht. }
  destruct (handle e st) as [st1 cmds] eqn:Hh. cbn [fst snd].
  destruct e; cbn [handle] in Hh;
    try rewrite Hd in Hh; cbn [negb] in Hh; rewrite ?andb_false_r in Hh;
    handle_cases Hh; cbn; auto.
Qed.

(** C4. The add of a sport [s] is recorded in [pendingSport].  When the call
    resolves, the step issues the invalidation of the [userSports] key and
    one success toast whose text is the sport's display name (first letter in
    upper case) followed by " was successfully added.", and the in-flight
    flag is cleared.  After any event, with the card on screen, the card is
    back to its initial state (dialog closed, selector reset, nothing
    pending) exactly when no add is in flight and [s] is not among the
    available sports; otherwise [s] is still recorded. *)
Theorem add_success_flow :
  forall (st : State) (s : Sport) (e : Event),
    truthy s = true ->
    AddSportCard.pendingSport (addCard st) = Some s ->
    (isPending (addSportMutation st) = true ->
     variables (addSportMutation st) = Some s ->
     snd (step (AddSettled true) st) =
       [InvalidateQueries ["userSports"];
        ToastSuccess (formatSportName s ++ " was successfully added.")]
     /\ count is_invalidate (snd (step (AddSettled true) st)) = 1
     /\ count is_success_toast (snd (step (AddSettled true) st)) = 1
     /\ count is_error_toast (snd (step (AddSettled true) st)) = 0
     /\ isPending (addSportMutation (fst (step (AddSettled true) st))) = false)
    /\ (on_screen (fst (step e st)) = true ->
        (addCard (fst (step e st)) = AddSportCard.initial
         <-> isPending (addSportMutation (fst (step e st))) = false
             /\ includes (st_availableSports (fst (step e st))) s = false)
        /\ (addCard (fst (step e st)) = AddSportCard.initial
            \/ AddSportCard.pendingSport (addCard (fst (step e st))) = Some s)).
Proof.
  intros st s e Ht Hp. split.
  - intros Hm Hv. unfold step. cbn [handle]. rewrite Hm, Hv. cbn [fst snd].
    match goal with
    | |- context [run_effects ?x] =>
        destruct (run_effects_frame x) as (_ & _ & -> & _)
    end.
    repeat split.
  - pose proof (step_keeps_pendingSport_before_effects e st s Ht Hp) as Hk.
    unfold step. destruct (handle e st) as [st1 cmds]. cbn [fst snd] in *.
    set (x := exec_all cmds st1) in *.
    destruct (run_effects_frame x) as (Fa & Fu & Fm & _).
    assert (Ho : on_screen (run_effects x) = on_screen x).
    { rewrite !on_screen_queries. unfold allLoading, userLoading, userSports.
      rewrite Fa, Fu. reflexivity. }
    assert (Hav : st_availableSports (run_effects x) = st_availableSports x).
    { unfold st_availableSports, allSports, userSports. rewrite Fa, Fu.
      reflexivity. }
    rewrite Ho, Hav, Fm, addCard_run_effects. intros ->.
    unfold AddSportCard.effect. rewrite Hk, Ht.
    cbn [cardProps AddSportCard.isMutating AddSportCard.p_availableSports andb].
    destruct (isPending (addSportMutation x)), (includes (st_availableSports x) s);
      cbn [negb andb].
    all: split; [split|].
    all: try (intro H; rewrite H in Hk; discriminate Hk).
    all: try (intros [H1 H2]; discriminate).
    all: try (right; exact Hk).
    all: try (left; reflexivity).
    all: try (intros _; split; reflexivity).
    all: try reflexivity.
Qed.

Lemma add_success_flow_witness :
  let st1 := fst (step (AddSettled true) adding_tennis) in
  let st2 := fst (step (UserSportsFetched ["baseball"; "tennis"]) st1) in
  truthy "tennis" = true
  /\ AddSportCard.pendingSport (addCard adding_tennis) = Some "tennis"
  /\ isPending (addSportMutation adding_tennis) = true
  /\ variables (addSportMutation adding_tennis) = Some "tennis"
  /\ AddSportCard.pendingSport (addCard st1) = Some "tennis"
  /\ on_screen st2 = true
  /\ snd (step (AddSettled true) adding_tennis) =
       [InvalidateQueries ["userSports"];
        ToastSuccess "Tennis was successfully added."]
  /\ addCard st2 = AddSportCard.initial.
Proof.
  cbn zeta. do 6 (split; [reflexivity|]). split.
  - exact (proj1 (proj1 (add_success_flow adding_tennis "tennis"
                           (AddSettled true) eq_refl eq_refl)
                    eq_refl eq_refl)).
  - exact (proj2 (proj1 (proj2 (add_success_flow
                                  (fst (step (AddSettled true) adding_tennis))
                                  "tennis"
                                  (UserSportsFetched ["baseball"; "tennis"])
                                  eq_refl eq_refl)
                           eq_refl))
                 (conj eq_refl eq_refl)).
Defined.

(** X14. The add, end to end.  With an add of [s] in flight and recorded,
    [s] having been offered: when the call resolves, [onSuccess] runs and the
    dialog stays as it is; when the refetched list then arrives (all of it
    known sports), the card is reset (closed, nothing selected, nothing
    pending) if the list has [s], and is left as it is if not. *)
Theorem add_closes_when_list_catches_up :
  forall (st : State) (s : Sport) (l : list Sport),
    isPending (addSportMutation st) = true ->
    variables (addSportMutation st) = Some s ->
    AddSportCard.pendingSport (addCard st) = Some s ->
    truthy s = true ->
    includes (st_availableSports st) s = true ->
    allLoading st = false ->
    forallb is_sport l = true ->
    let r1 := step (AddSettled true) st in
    let r2 := step (UserSportsFetched l) (fst r1) in
    snd r1 = add_onSuccess s
    /\ addCard (fst r1) = addCard st
    /\ isPending (addSportMutation (fst r1)) = false
    /\ snd r2 = []
    /\ addCard (fst r2) =
       if includes l s then AddSportCard.initial else addCard st.
Proof.
  intros st s l Hp Hv Hc Ht Hi Hl Hk r1 r2.
  assert (E1 : r1 = (run_effects (setAddMutation (mkMutation false (Some s)) st),
                     add_onSuccess s)).
  { unfold r1, step. cbn [handle]. rewrite Hp, Hv. reflexivity. }
  assert (Hcard : addCard (fst r1) = addCard st).
  { rewrite E1. cbn [fst].
    rewrite (run_effects_keeps_card _ s); [reflexivity | exact Hc | exact Hi]. }
  destruct (run_effects_frame (setAddMutation (mkMutation false (Some s)) st))
    as (Fa & Fu & Fm & _).
  assert (Ef : fst r1 = run_effects
                          (setAddMutation (mkMutation false (Some s)) st))
    by (rewrite E1; reflexivity).
  rewrite <- Ef in Fa, Fu, Fm.
  cbn [setAddMutation allSportsQuery userSportsQuery addSportMutation] in Fa, Fu, Fm.
  split; [rewrite E1; reflexivity|]. split; [exact Hcard|].
  split; [rewrite Fm; reflexivity|].
  unfold r2, step. cbn [handle exec_all fold_left fst snd].
  split; [reflexivity|].
  clear Ef. generalize dependent (fst r1). intros st1 _ Hcard Fa Fu Fm.
  rewrite addCard_run_effects.
  set (st2 := setUserSportsQuery (mkQuery (Some l) false) st1).
  assert (Ho : on_screen st2 = true).
  { rewrite on_screen_queries. unfold st2, allLoading, userLoading, userSports.
    cbn. rewrite Fa. unfold allLoading in Hl. rewrite Hl, Hk. reflexivity. }
  rewrite Ho. unfold AddSportCard.effect.
  change (addCard st2) with (addCard st1). rewrite Hcard, Hc, Ht.
  unfold cardProps, st_availableSports, allSports, userSports, st2.
  cbn. rewrite Fa, Fm. cbn.
  rewrite includes_availableSports.
  unfold st_availableSports, allSports in Hi.
  rewrite includes_availableSports in Hi.
  apply andb_true_iff in Hi as [Hi _]. rewrite Hi.
  destruct (includes l s); reflexivity.
Qed.

(** X15. The delete, end to end.  With the delete of a subscribed sport [s]
    confirmed and in flight: when the call resolves, [onSuccess] runs and the
    markers stay; when the refetched list then arrives, the markers are
    cleared (the dialog closes, the buttons are enabled again) if [s] is gone
    from the list, and stay if it is still there. *)
Theorem delete_clears_when_list_catches_up :
  forall (st : State) (s : Sport) (l : list Sport),
    isPending (deleteSportMutation st) = true ->
    variables (deleteSportMutation st) = Some s ->
    sportToDelete st = Some s ->
    truthy s = true ->
    deletingPending st = true ->
    includes (userSports st) s = true ->
    let r1 := step (DeleteSettled true) st in
    let r2 := step (UserSportsFetched l) (fst r1) in
    snd r1 = delete_onSuccess s
    /\ sportToDelete (fst r1) = Some s
    /\ deletingPending (fst r1) = true
    /\ snd r2 = []
    /\ sportToDelete (fst r2) = (if includes l s then Some s else None)
    /\ deletingPending (fst r2) = includes l s.
Proof.
  intros st s l Hp Hv Hs Ht Hd Hi r1 r2.
  assert (E1 : r1 = (run_effects (setDeleteMutation (mkMutation false (Some s)) st),
                     delete_onSuccess s)).
  { unfold r1, step. cbn [handle]. rewrite Hp, Hv. reflexivity. }
  destruct (run_effects_frame (setDeleteMutation (mkMutation false (Some s)) st))
    as (_ & _ & _ & Fm & Fs & Fp).
  rewrite (effect_keeps_subscribed _ s) in Fs, Fp by assumption.
  assert (Ef : fst r1 = run_effects
                          (setDeleteMutation (mkMutation false (Some s)) st))
    by (rewrite E1; reflexivity).
  rewrite <- Ef in Fm, Fs, Fp.
  cbn [setDeleteMutation sportToDelete deletingPending deleteSportMutation]
    in Fm, Fs, Fp.
  rewrite Hs in Fs. rewrite Hd in Fp.
  split; [rewrite E1; reflexivity|]. split; [exact Fs|]. split; [exact Fp|].
  unfold r2, step. cbn [handle exec_all fold_left fst snd].
  split; [reflexivity|].
  clear Ef. generalize dependent (fst r1). intros st1 _ Fm Fs Fp.
  destruct (run_effects_frame (setUserSportsQuery (mkQuery (Some l) false) st1))
    as (_ & _ & _ & _ & -> & ->).
  unfold effect, userSports.
  cbn [setUserSportsQuery sportToDelete deletingPending deleteSportMutation
       userSportsQuery data_or_empty data].
  rewrite Fs, Fp, Fm, Ht. cbn [isPending negb andb].
  destruct (includes l s); cbn [negb]; split; try reflexivity; assumption.
Qed.

Lemma add_closes_when_list_catches_up_witness :
  isPending (addSportMutation adding_tennis) = true
  /\ variables (addSportMutation adding_tennis) = Some "tennis"
  /\ AddSportCard.pendingSport (addCard adding_tennis) = Some "tennis"
  /\ truthy "tennis" = true
  /\ includes (st_availableSports adding_tennis) "tennis" = true
  /\ allLoading adding_tennis = false
  /\ forallb is_sport ["baseball"; "tennis"] = true
  /\ addCard (fst (step (UserSportsFetched ["baseball"; "tennis"])
                        (fst (step (AddSettled true) adding_tennis))))
     = AddSportCard.initial.
Proof.
  do 7 (split; [reflexivity|]).
  exact (proj2 (proj2 (proj2 (proj2
    (add_closes_when_list_catches_up adding_tennis "tennis"
       ["baseball"; "tennis"] eq_refl eq_refl eq_refl eq_refl eq_refl eq_refl
       eq_refl))))).
Defined.

Lemma delete_clears_when_list_catches_up_witness :
  isPending (deleteSportMutation deleting_baseball) = true
  /\ variables (deleteSportMutation deleting_baseball) = Some "baseball"
  /\ sportToDelete deleting_baseball = Some "baseball"
  /\ truthy "baseball" = true
  /\ deletingPending deleting_baseball = true
  /\ includes (userSports deleting_baseball) "baseball" = true
  /\ deletingPending (fst (step (UserSportsFetched ["tennis"])
                               (fst (step (DeleteSettled true) deleting_baseball))))
     = false.
Proof.
  do 6 (split; [reflexivity|]).
  exact (proj2 (proj2 (proj2 (proj2 (proj2
    (delete_clears_when_list_catches_up deleting_baseball "baseball"
       ["tennis"] eq_refl eq_refl eq_refl eq_refl eq_refl eq_refl)))))).
Defined.

(** ** Asking for a removal *)

Lemma is_sport_truthy (s : string) : is_sport s = true -> truthy s = true.
Proof. destruct s; [discriminate | reflexivity]. Qed.

Lemma forallb_includes (f : Sport -> bool) (l : list Sport) (s : Sport) :
  forallb f l = true -> includes l s = true -> f s = true.
Proof.
  intros Hf Hi. apply includes_In in Hi.
  rewrite forallb_forall in Hf. apply Hf. exact Hi.
Qed.

(** X16. A click on the remove button of a subscribed sport, while no delete
    is pending, only opens the confirmation dialog for that sport: nothing is
    dispatched, the dialog is open with the sport's display name in its
    title, and its two buttons are enabled. *)
Theorem remove_click_opens_confirmation :
  forall (st : State) (s : Sport),
    on_screen st = true ->
    includes (userSports st) s = true ->
    deletingPending st = false ->
    let r := step (ClickRemove s) st in
    snd r = []
    /\ sportToDelete (fst r) = Some s
    /\ deletingPending (fst r) = false
    /\ deleteSportMutation (fst r) = deleteSportMutation st
    /\ render_dialog (fst r) =
       mkDialog true ("Confirm " ++ formatSportName s ++ " Deletion")%string
                false false "Delete".
Proof.
  intros st s Ho Hi Hd r.
  assert (Ht : truthy s = true).
  { apply is_sport_truthy. rewrite on_screen_queries in Ho.
    apply andb_true_iff in Ho as [_ Ho].
    exact (forallb_includes _ _ _ Ho Hi). }
  assert (E : r = (run_effects (setSportToDelete (Some s) st), [])).
  { unfold r, step. cbn [handle]. unfold isDeleting. rewrite Ho, Hi, Hd.
    reflexivity. }
  destruct (run_effects_frame (setSportToDelete (Some s) st))
    as (_ & _ & _ & Fm & Fs & Fp).
  rewrite (effect_keeps_subscribed _ s) in Fs, Fp by (reflexivity || exact Hi).
  cbn [setSportToDelete sportToDelete deletingPending deleteSportMutation]
    in Fm, Fs, Fp.
  rewrite E. cbn [fst snd]. split; [reflexivity|].
  split; [exact Fs|]. split; [rewrite Fp; exact Hd|]. split; [exact Fm|].
  unfold render_dialog, isDeleting. rewrite Fs, Fp, Hd, Ht. reflexivity.
Qed.

Lemma remove_click_opens_confirmation_witness :
  let st := loaded known_sports ["baseball"; "tennis"] in
  on_screen st = true
  /\ includes (userSports st) "tennis" = true
  /\ deletingPending st = false
  /\ dv_title (render_dialog (fst (step (ClickRemove "tennis") st)))
     = "Confirm Tennis Deletion".
Proof.
  cbn zeta. do 3 (split; [reflexivity|]).
  destruct (remove_click_opens_confirmation
              (loaded known_sports ["baseball"; "tennis"]) "tennis"
              eq_refl eq_refl eq_refl) as (_ & _ & _ & _ & H).
  cbn zeta in H. rewrite H. reflexivity.
Defined.

(** ** Mounting *)

(** X17. From the mount, with nothing on screen but the loading notice, the
    section is ready once both lists have arrived, in either order: the
    state is then the loaded one, nothing selected or pending, and no
    command was issued; after only one of the two lists the render is still
    the loading notice. *)
Theorem mount_then_both_lists :
  forall all user : list Sport,
    run [AllSportsFetched all; UserSportsFetched user] mount = (loaded all user, [])
    /\ run [UserSportsFetched user; AllSportsFetched all] mount = (loaded all user, [])
    /\ render (fst (step (AllSportsFetched all) mount)) = Normal Loading
    /\ render (fst (step (UserSportsFetched user) mount)) = Normal Loading
    /\ render mount = Normal Loading.
Proof.
  intros all user.
  assert (H : forall st, sportToDelete st = None ->
                         addCard st = AddSportCard.initial ->
                         run_effects st = st).
  { intros st Hs Hc. unfold run_effects. rewrite (effect_cleared st Hs).
    destruct (on_screen st); [|reflexivity].
    rewrite Hc. cbn [AddSportCard.effect AddSportCard.pendingSport
                     AddSportCard.initial].
    rewrite <- Hc. destruct st; reflexivity. }
  repeat split; cbn [run step handle exec_all fold_left app];
    repeat (rewrite H by reflexivity); reflexivity.
Qed.
